(** * RTSP session handler (components/rtsp/include/rtsp_session.hpp)

    A shallow embedding of [espp::RtspSession]: the request parsers, the
    response writer, the request handlers, the control task step and the
    media send operations, followed by the properties of the session that
    the specification states about them.

    Conventions of the embedding:
    - [std::string] and [std::string_view] are [string]; positions and
      counts are [size_t] values, kept as [Z] with the 32-bit wrap-around
      of the ESP32 targets written out ([size_t.add], [size_t.sub]);
    - a C++ exception ([std::out_of_range] of [substr], [std::invalid_argument]
      and [std::out_of_range] of [std::stoi]) is the outcome [Throw];
    - the member functions run in a state monad over the session object;
      the sockets keep a log of what was handed to them. *)

From Stdlib Require Import ZArith String Ascii List Bool Lia.
Import ListNotations.

Open Scope string_scope.
Open Scope Z_scope.

(** ** size_t arithmetic *)

Module size_t.
Definition bits : Z := 32.
Definition modulus : Z := 2 ^ bits.
Definition wrap (z : Z) : Z := z mod modulus.
Definition add (a b : Z) : Z := wrap (a + b).
Definition sub (a b : Z) : Z := wrap (a - b).
End size_t.

(** [std::string::npos], the largest [size_t]. *)
Definition npos : Z := size_t.modulus - 1.

(** The range of [int]. *)
Definition INT_MIN : Z := - 2 ^ 31.
Definition INT_MAX : Z := 2 ^ 31 - 1.

(** ** Exceptions and outcomes *)

Inductive exn : Type :=
| out_of_range      (* std::out_of_range *)
| invalid_argument  (* std::invalid_argument *)
| null_dereference. (* use of an empty std::unique_ptr *)

Inductive outcome (A : Type) : Type :=
| Ret (a : A)
| Throw (e : exn).
Arguments Ret {A} a.
Arguments Throw {A} e.

(** ** Characters and text *)

Definition CR : ascii := "013"%char.
Definition LF : ascii := "010"%char.
Definition SP : ascii := " "%char.
Definition DASH : ascii := "-"%char.
Definition DQUOTE : ascii := "034"%char.
Definition CRLF : string := String CR (String LF EmptyString).

Definition size (s : string) : Z := Z.of_nat (String.length s).

Fixpoint drop (n : nat) (s : string) : string :=
  match n, s with
  | O, _ => s
  | S _, EmptyString => EmptyString
  | S k, String _ t => drop k t
  end.

Fixpoint take (n : nat) (s : string) : string :=
  match n, s with
  | O, _ => EmptyString
  | S _, EmptyString => EmptyString
  | S k, String a t => String a (take k t)
  end.

(** Offset of the first occurrence of [c] in [s]. *)
Fixpoint index_char (c : ascii) (s : string) : option nat :=
  match s with
  | EmptyString => None
  | String a t =>
      if Ascii.eqb a c then Some O else option_map S (index_char c t)
  end.

(** Offset of the first occurrence of [needle] in [s]. *)
Fixpoint index_str (needle : string) (s : string) : option nat :=
  if String.prefix needle s then Some O
  else match s with
       | EmptyString => None
       | String _ t => option_map S (index_str needle t)
       end.

(** ** std::string_view *)

Module string_view.

(** [sv.find(c, pos)]: the first position at or after [pos] holding [c],
    [npos] when there is none or [pos] is not below the size. *)
Definition find_char (s : string) (c : ascii) (pos : Z) : Z :=
  if size s <=? pos then npos
  else match index_char c (drop (Z.to_nat pos) s) with
       | Some i => pos + Z.of_nat i
       | None => npos
       end.

(** [sv.find(needle, pos)] for a non-empty [needle]. *)
Definition find (s : string) (needle : string) (pos : Z) : Z :=
  if size s <=? pos then npos
  else match index_str needle (drop (Z.to_nat pos) s) with
       | Some i => pos + Z.of_nat i
       | None => npos
       end.

(** [sv.substr(pos, count)]: throws when [pos] is beyond the size,
    otherwise the [min(count, size - pos)] characters from [pos]. *)
Definition substr (s : string) (pos count : Z) : outcome string :=
  if size s <? pos then Throw out_of_range
  else Ret (take (Z.to_nat (Z.min count (size s - pos)))
                 (drop (Z.to_nat pos) s)).

Definition empty (s : string) : bool :=
  match s with EmptyString => true | _ => false end.

End string_view.

(** ** std::stoi and std::to_string *)

Definition isspace (c : ascii) : bool :=
  let n := nat_of_ascii c in
  (Nat.eqb n 32 || (Nat.leb 9 n && Nat.leb n 13))%bool.

Definition isdigit (c : ascii) : bool :=
  let n := nat_of_ascii c in (Nat.leb 48 n && Nat.leb n 57)%bool.

Definition digit_value (c : ascii) : Z := Z.of_nat (nat_of_ascii c) - 48.

Fixpoint skip_spaces (s : string) : string :=
  match s with
  | String a t => if isspace a then skip_spaces t else s
  | EmptyString => s
  end.

(** The value accumulated so far, 0 before any digit is read. *)
Definition acc_value (acc : option Z) : Z :=
  match acc with
  | Some v => v
  | None => 0
  end.

(** The value of the longest prefix of decimal digits, [None] when the
    text does not start with a digit. *)
Fixpoint read_digits (s : string) (acc : option Z) : option Z :=
  match s with
  | String a t =>
      if isdigit a
      then read_digits t (Some (10 * acc_value acc + digit_value a))
      else acc
  | EmptyString => acc
  end.

(** [std::stoi(s)] in base 10: leading white space is skipped, an optional
    sign is read, then the longest run of digits; text after the digits is
    ignored.  No digit: [std::invalid_argument]; a value outside [int]:
    [std::out_of_range]. *)
Definition stoi (s : string) : outcome Z :=
  let s1 := skip_spaces s in
  let '(negative, s2) :=
    match s1 with
    | String a t =>
        if Ascii.eqb a "-" then (true, t)
        else if Ascii.eqb a "+" then (false, t)
        else (false, s1)
    | EmptyString => (false, s1)
    end in
  match read_digits s2 None with
  | None => Throw invalid_argument
  | Some v =>
      let n := if negative then - v else v in
      if ((INT_MIN <=? n) && (n <=? INT_MAX))%bool then Ret n
      else Throw out_of_range
  end.

Definition digit_char (d : Z) : ascii := ascii_of_nat (Z.to_nat (48 + d)).

(** Decimal digits of a non-negative number, most significant first. *)
Fixpoint decimal (fuel : nat) (n : Z) (acc : string) : string :=
  let acc' := String (digit_char (n mod 10)) acc in
  match fuel with
  | O => acc'
  | S f => if n <? 10 then acc' else decimal f (n / 10) acc'
  end.

(** [std::to_string] of an integer. *)
Definition to_string (z : Z) : string :=
  if z <? 0
  then String "-" (decimal (Z.to_nat (Z.log2 (- z))) (- z) EmptyString)
  else decimal (Z.to_nat (Z.log2 z)) z EmptyString.

(** ** Collaborators of the session *)

(** Modelled from the spec: [espp::TcpSocket] (tcp_socket.hpp is not among
    the sources).  The control stream is a reliable byte stream:
    [transmit] hands a text to the stream and reports failure as a boolean,
    [receive] blocks for up to a bounded number of bytes, [is_connected]
    tells whether the stream is still up.  The model keeps the texts handed
    to [transmit] in order, and a queue of pending receive outcomes
    ([None]: the receive fails and the stream is down). *)
Record TcpSocket : Type := {
  tcp_connected : bool;
  tcp_transmit_ok : bool;
  tcp_written : list string;
  tcp_incoming : list (option string)
}.

Definition tcp_transmit (sock : TcpSocket) (data : string) : bool * TcpSocket :=
  (tcp_transmit_ok sock,
   {| tcp_connected := tcp_connected sock;
      tcp_transmit_ok := tcp_transmit_ok sock;
      tcp_written := (tcp_written sock ++ [data])%list;
      tcp_incoming := tcp_incoming sock |}).

Definition tcp_receive (sock : TcpSocket) (max_num_bytes : Z)
  : option string * TcpSocket :=
  match tcp_incoming sock with
  | Some data :: rest =>
      let n := Z.to_nat max_num_bytes in
      (Some (take n data),
       {| tcp_connected := tcp_connected sock;
          tcp_transmit_ok := tcp_transmit_ok sock;
          tcp_written := tcp_written sock;
          tcp_incoming :=
            if string_view.empty (drop n data) then rest
            else Some (drop n data) :: rest |})
  | None :: rest =>
      (None,
       {| tcp_connected := false;
          tcp_transmit_ok := tcp_transmit_ok sock;
          tcp_written := tcp_written sock;
          tcp_incoming := rest |})
  | [] =>
      (None,
       {| tcp_connected := false;
          tcp_transmit_ok := tcp_transmit_ok sock;
          tcp_written := tcp_written sock;
          tcp_incoming := [] |})
  end.

(** A datagram handed to a UDP socket: payload, destination address and
    destination port. *)
Record datagram : Type := {
  dg_data : string;
  dg_ip_address : string;
  dg_port : Z
}.

(** Modelled from the spec: [espp::UdpSocket] (udp_socket.hpp is not among
    the sources).  [send] emits one datagram to the given address and port
    and returns false when the datagram send fails.  The model keeps the
    datagrams handed to [send] in order. *)
Record UdpSocket : Type := {
  udp_send_ok : bool;
  udp_sent : list datagram
}.

Definition udp_send (sock : UdpSocket) (data ip_address : string) (port : Z)
  : bool * UdpSocket :=
  (udp_send_ok sock,
   {| udp_send_ok := udp_send_ok sock;
      udp_sent := (udp_sent sock ++
                   [{| dg_data := data; dg_ip_address := ip_address;
                       dg_port := port |}])%list |}).

(** Modelled from the spec: [espp::RtpPacket] and [espp::RtcpPacket]
    (rtp_packet.hpp and rtcp_packet.hpp are not among the sources); the
    session carries opaque byte slices, so a packet is what [get_data]
    returns. *)
Definition RtpPacket : Type := string.
Definition RtcpPacket : Type := string.
Definition get_data (packet : string) : string := packet.

(** ** The session object *)

Record RtspSession : Type := {
  control_socket_ : option TcpSocket;
  rtp_socket_ : UdpSocket;
  rtcp_socket_ : UdpSocket;
  session_id_ : Z;
  closed_ : bool;
  session_active_ : bool;
  server_address_ : string;
  rtsp_path_ : string;
  client_address_ : string;
  client_rtp_port_ : Z;
  client_rtcp_port_ : Z
}.

Definition set_control_socket (v : option TcpSocket) (s : RtspSession) :=
  {| control_socket_ := v; rtp_socket_ := rtp_socket_ s;
     rtcp_socket_ := rtcp_socket_ s; session_id_ := session_id_ s;
     closed_ := closed_ s; session_active_ := session_active_ s;
     server_address_ := server_address_ s; rtsp_path_ := rtsp_path_ s;
     client_address_ := client_address_ s;
     client_rtp_port_ := client_rtp_port_ s;
     client_rtcp_port_ := client_rtcp_port_ s |}.

Definition set_rtp_socket (v : UdpSocket) (s : RtspSession) :=
  {| control_socket_ := control_socket_ s; rtp_socket_ := v;
     rtcp_socket_ := rtcp_socket_ s; session_id_ := session_id_ s;
     closed_ := closed_ s; session_active_ := session_active_ s;
     server_address_ := server_address_ s; rtsp_path_ := rtsp_path_ s;
     client_address_ := client_address_ s;
     client_rtp_port_ := client_rtp_port_ s;
     client_rtcp_port_ := client_rtcp_port_ s |}.

Definition set_rtcp_socket (v : UdpSocket) (s : RtspSession) :=
  {| control_socket_ := control_socket_ s; rtp_socket_ := rtp_socket_ s;
     rtcp_socket_ := v; session_id_ := session_id_ s;
     closed_ := closed_ s; session_active_ := session_active_ s;
     server_address_ := server_address_ s; rtsp_path_ := rtsp_path_ s;
     client_address_ := client_address_ s;
     client_rtp_port_ := client_rtp_port_ s;
     client_rtcp_port_ := client_rtcp_port_ s |}.

Definition set_closed (v : bool) (s : RtspSession) :=
  {| control_socket_ := control_socket_ s; rtp_socket_ := rtp_socket_ s;
     rtcp_socket_ := rtcp_socket_ s; session_id_ := session_id_ s;
     closed_ := v; session_active_ := session_active_ s;
     server_address_ := server_address_ s; rtsp_path_ := rtsp_path_ s;
     client_address_ := client_address_ s;
     client_rtp_port_ := client_rtp_port_ s;
     client_rtcp_port_ := client_rtcp_port_ s |}.

Definition set_session_active (v : bool) (s : RtspSession) :=
  {| control_socket_ := control_socket_ s; rtp_socket_ := rtp_socket_ s;
     rtcp_socket_ := rtcp_socket_ s; session_id_ := session_id_ s;
     closed_ := closed_ s; session_active_ := v;
     server_address_ := server_address_ s; rtsp_path_ := rtsp_path_ s;
     client_address_ := client_address_ s;
     client_rtp_port_ := client_rtp_port_ s;
     client_rtcp_port_ := client_rtcp_port_ s |}.

Definition set_client_rtp_port (v : Z) (s : RtspSession) :=
  {| control_socket_ := control_socket_ s; rtp_socket_ := rtp_socket_ s;
     rtcp_socket_ := rtcp_socket_ s; session_id_ := session_id_ s;
     closed_ := closed_ s; session_active_ := session_active_ s;
     server_address_ := server_address_ s; rtsp_path_ := rtsp_path_ s;
     client_address_ := client_address_ s;
     client_rtp_port_ := v;
     client_rtcp_port_ := client_rtcp_port_ s |}.

Definition set_client_rtcp_port (v : Z) (s : RtspSession) :=
  {| control_socket_ := control_socket_ s; rtp_socket_ := rtp_socket_ s;
     rtcp_socket_ := rtcp_socket_ s; session_id_ := session_id_ s;
     closed_ := closed_ s; session_active_ := session_active_ s;
     server_address_ := server_address_ s; rtsp_path_ := rtsp_path_ s;
     client_address_ := client_address_ s;
     client_rtp_port_ := client_rtp_port_ s;
     client_rtcp_port_ := v |}.

(** ** The monad of member functions: session state and exceptions *)

Definition M (A : Type) : Type := RtspSession -> outcome A * RtspSession.

Definition ret {A} (a : A) : M A := fun s => (Ret a, s).

Definition bind {A B} (m : M A) (k : A -> M B) : M B :=
  fun s => match m s with
           | (Ret a, s') => k a s'
           | (Throw e, s') => (Throw e, s')
           end.

Definition throw {A} (e : exn) : M A := fun s => (Throw e, s).

Definition get : M RtspSession := fun s => (Ret s, s).

Definition modify (f : RtspSession -> RtspSession) : M unit :=
  fun s => (Ret tt, f s).

(** A computation that does not touch the session. *)
Definition lift {A} (o : outcome A) : M A := fun s => (o, s).

Declare Scope session_scope.
Delimit Scope session_scope with session.
Notation "x <- m ;; k" := (bind m (fun x => k))
  (at level 61, m at next level, right associativity) : session_scope.
Notation "m ;; k" := (bind m (fun _ => k))
  (at level 61, right associativity) : session_scope.
Open Scope session_scope.

(** Sequencing of computations that may throw but do not touch the session. *)
Definition outcome_bind {A B} (o : outcome A) (k : A -> outcome B)
  : outcome B :=
  match o with
  | Ret a => k a
  | Throw e => Throw e
  end.
Notation "x <~ o ;; k" := (outcome_bind o (fun x => k))
  (at level 61, o at next level, right associativity) : session_scope.

(** ** Member functions of [RtspSession] *)

Import string_view.

Definition get_session_id (s : RtspSession) : Z := session_id_ s.

Definition is_closed (s : RtspSession) : bool := closed_ s.

Definition is_connected (s : RtspSession) : bool :=
  match control_socket_ s with
  | Some sock => tcp_connected sock
  | None => false
  end.

Definition is_active (s : RtspSession) : bool := session_active_ s.

Definition play : M unit := modify (set_session_active true).

Definition pause : M unit := modify (set_session_active false).

Definition teardown : M unit :=
  modify (set_session_active false) ;;
  modify (set_closed true).

Definition send_rtp_packet (packet : RtpPacket) : M bool :=
  s <- get ;;
  let '(sent, sock) :=
    udp_send (rtp_socket_ s) (get_data packet) (client_address_ s)
             (size_t.wrap (client_rtp_port_ s)) in
  modify (set_rtp_socket sock) ;;
  ret sent.

Definition send_rtcp_packet (packet : RtcpPacket) : M bool :=
  s <- get ;;
  let '(sent, sock) :=
    udp_send (rtcp_socket_ s) (get_data packet) (client_address_ s)
             (size_t.wrap (client_rtcp_port_ s)) in
  modify (set_rtcp_socket sock) ;;
  ret sent.

(** [control_socket_->transmit(response)] *)
Definition transmit (response : string) : M bool :=
  s <- get ;;
  match control_socket_ s with
  | None => throw null_dereference
  | Some sock =>
      let '(sent, sock') := tcp_transmit sock response in
      modify (set_control_socket (Some sock')) ;;
      ret sent
  end.

(** [send_response(code, message, sequence_number, headers, body)]; the
    defaults of the optional arguments are [-1], the empty text and the
    empty text. *)
Definition send_response (code : Z) (message : string) (sequence_number : Z)
    (headers body : string) : M bool :=
  let response := "RTSP/1.0 " ++ to_string code ++ " " ++ message ++ CRLF in
  let response :=
    if negb (sequence_number =? -1)
    then response ++ "CSeq: " ++ to_string sequence_number ++ CRLF
    else response in
  let response :=
    if negb (empty headers) then response ++ headers else response in
  let response :=
    if negb (empty body)
    then (response ++ "Content-Length: " ++ to_string (size body) ++ CRLF)
           ++ CRLF ++ body
    else response ++ CRLF in
  transmit response.

Definition parse_rtsp_command_sequence (request : string)
  : outcome (option Z) :=
  let cseq_index := find request "CSeq: " 0 in
  if cseq_index =? npos then Ret None
  else
    let cseq_end_index := find_char request CR cseq_index in
    if cseq_end_index =? npos then Ret None
    else
      cseq_str <~ substr request (size_t.add cseq_index 6)
                    (size_t.sub (size_t.sub cseq_end_index cseq_index) 6) ;;
      if empty cseq_str then Ret None
      else
        cseq <~ stoi cseq_str ;;
        Ret (Some cseq).

Definition parse_rtsp_path (request : string) : outcome string :=
  substr request
    (size_t.add (find_char request SP 0) 1)
    (size_t.sub
       (size_t.sub
          (find_char request SP (size_t.add (find_char request SP 0) 1))
          (find_char request SP 0))
       1).

(** [parse_rtsp_setup_request]: the three outputs are returned together,
    [None] stands for the result [false]. *)
Definition parse_rtsp_setup_request (request : string)
  : M (option (string * Z * Z)) :=
  rtsp_path <- lift (parse_rtsp_path request) ;;
  if empty rtsp_path then ret None
  else
    let transport_index := find request "Transport: " 0 in
    if transport_index =? npos then ret None
    else
      let transport_end_index := find_char request CR transport_index in
      if transport_end_index =? npos then ret None
      else
        transport <- lift (substr request (size_t.add transport_index 11)
                             (size_t.sub
                                (size_t.sub transport_end_index transport_index)
                                11)) ;;
        if empty transport then ret None
        else if negb (find transport "RTP/AVP/TCP" 0 =? npos) then
          send_response 461 "Unsupported Transport" (-1) EmptyString
            EmptyString ;;
          ret None
        else
          let client_port_index := find request "client_port=" 0 in
          let dash_index := find_char request DASH client_port_index in
          rtp_port <- lift (substr request (size_t.add client_port_index 12)
                              (size_t.sub
                                 (size_t.sub dash_index client_port_index)
                                 12)) ;;
          if empty rtp_port then ret None
          else
            rtcp_port <- lift (substr request (size_t.add dash_index 1)
                                 (size_t.sub
                                    (size_t.sub
                                       (find_char request CR client_port_index)
                                       dash_index)
                                    1)) ;;
            if empty rtcp_port then ret None
            else
              client_rtp_port <- lift (stoi rtp_port) ;;
              client_rtcp_port <- lift (stoi rtcp_port) ;;
              ret (Some (rtsp_path, client_rtp_port, client_rtcp_port)).

Definition handle_rtsp_invalid_request (request : string) : M bool :=
  cseq <- lift (parse_rtsp_command_sequence request) ;;
  match cseq with
  | None => send_response 400 "Bad Request" (-1) EmptyString EmptyString
  | Some sequence_number =>
      send_response 400 "Bad Request" sequence_number EmptyString EmptyString
  end.

Definition handle_rtsp_options (request : string) : M bool :=
  cseq <- lift (parse_rtsp_command_sequence request) ;;
  match cseq with
  | None => handle_rtsp_invalid_request request
  | Some sequence_number =>
      let headers := "Public: DESCRIBE, SETUP, TEARDOWN, PLAY, PAUSE" ++ CRLF in
      send_response 200 "OK" sequence_number headers EmptyString
  end.

Definition handle_rtsp_describe (request : string) : M bool :=
  cseq <- lift (parse_rtsp_command_sequence request) ;;
  match cseq with
  | None => handle_rtsp_invalid_request request
  | Some sequence_number =>
      s <- get ;;
      let rtsp_path := "rtsp://" ++ server_address_ s ++ "/" ++ rtsp_path_ s in
      let body :=
        "v=0" ++ CRLF ++
        "o=- " ++ to_string (session_id_ s) ++ " 1 IN IP4 "
          ++ server_address_ s ++ CRLF ++
        "s=MJPEG Stream" ++ CRLF ++
        "i=MJPEG Stream" ++ CRLF ++
        "t=0 0" ++ CRLF ++
        "a=control:" ++ rtsp_path ++ CRLF ++
        "a=mimetype:string;" ++ String DQUOTE "video/x-motion-jpeg"
          ++ String DQUOTE CRLF ++
        "m=video 0 RTP/AVP 26" ++ CRLF ++
        "c=IN IP4 0.0.0.0" ++ CRLF ++
        "b=AS:256" ++ CRLF ++
        "a=control:" ++ rtsp_path ++ CRLF ++
        "a=udp-only" ++ CRLF in
      let headers :=
        "Content-Type: application/sdp" ++ CRLF ++
        "Content-Base: " ++ rtsp_path ++ CRLF in
      send_response 200 "OK" sequence_number headers body
  end.

Definition handle_rtsp_setup (request : string) : M bool :=
  parsed <- parse_rtsp_setup_request request ;;
  match parsed with
  | None => ret false
  | Some (_, client_rtp_port, client_rtcp_port) =>
      cseq <- lift (parse_rtsp_command_sequence request) ;;
      match cseq with
      | None => handle_rtsp_invalid_request request
      | Some sequence_number =>
          modify (set_client_rtp_port client_rtp_port) ;;
          modify (set_client_rtcp_port client_rtcp_port) ;;
          s <- get ;;
          let headers :=
            "Session: " ++ to_string (session_id_ s) ++ CRLF ++
            "Transport: RTP/AVP;unicast;client_port="
              ++ to_string client_rtp_port ++ "-"
              ++ to_string client_rtcp_port ++ CRLF in
          send_response 200 "OK" sequence_number headers EmptyString
      end
  end.

Definition handle_rtsp_play (request : string) : M bool :=
  cseq <- lift (parse_rtsp_command_sequence request) ;;
  match cseq with
  | None => handle_rtsp_invalid_request request
  | Some sequence_number =>
      play ;;
      s <- get ;;
      let headers :=
        "Session: " ++ to_string (session_id_ s) ++ CRLF ++
        "Range: npt=0.000-" ++ CRLF in
      send_response 200 "OK" sequence_number headers EmptyString
  end.

Definition handle_rtsp_pause (request : string) : M bool :=
  cseq <- lift (parse_rtsp_command_sequence request) ;;
  match cseq with
  | None => handle_rtsp_invalid_request request
  | Some sequence_number =>
      pause ;;
      s <- get ;;
      let headers := "Session: " ++ to_string (session_id_ s) ++ CRLF in
      send_response 200 "OK" sequence_number headers EmptyString
  end.

Definition handle_rtsp_teardown (request : string) : M bool :=
  cseq <- lift (parse_rtsp_command_sequence request) ;;
  match cseq with
  | None => handle_rtsp_invalid_request request
  | Some sequence_number =>
      teardown ;;
      s <- get ;;
      let headers := "Session: " ++ to_string (session_id_ s) ++ CRLF in
      send_response 200 "OK" sequence_number headers EmptyString
  end.

Definition handle_rtsp_request (request : string) : M bool :=
  let first_space_index := find_char request SP 0 in
  let second_space_index :=
    find_char request SP (size_t.add first_space_index 1) in
  let end_of_line_index := find_char request CR 0 in
  if ((first_space_index =? npos) || (second_space_index =? npos)
      || (end_of_line_index =? npos))%bool
  then handle_rtsp_invalid_request request
  else
    method <- lift (substr request 0 first_space_index) ;;
    _ <- lift (substr request (size_t.add first_space_index 1)
                 (size_t.sub (size_t.sub second_space_index first_space_index)
                    1)) ;;
    _ <- lift (substr request (size_t.add second_space_index 1)
                 (size_t.sub (size_t.sub end_of_line_index second_space_index)
                    1)) ;;
    request_body <- lift (substr request (size_t.add end_of_line_index 2)
                            npos) ;;
    if String.eqb method "OPTIONS" then handle_rtsp_options request_body
    else if String.eqb method "DESCRIBE" then handle_rtsp_describe request_body
    else if String.eqb method "SETUP" then handle_rtsp_setup request_body
    else if String.eqb method "PLAY" then handle_rtsp_play request_body
    else if String.eqb method "PAUSE" then handle_rtsp_pause request_body
    else if String.eqb method "TEARDOWN" then handle_rtsp_teardown request_body
    else handle_rtsp_invalid_request request_body.

Definition max_request_size : Z := 1024.

(** [control_socket_->receive(buffer, max_request_size)]; the socket has
    been checked to be present by the caller. *)
Definition receive (max_num_bytes : Z) : M (option string) :=
  s <- get ;;
  match control_socket_ s with
  | None => throw null_dereference
  | Some sock =>
      let '(buffer, sock') := tcp_receive sock max_num_bytes in
      modify (set_control_socket (Some sock')) ;;
      ret buffer
  end.

(** One run of the task callback: [true] asks the task to stop. *)
Definition control_task_fn : M bool :=
  s <- get ;;
  if closed_ s then ret true
  else
    match control_socket_ s with
    | None => teardown ;; ret true
    | Some sock =>
        if negb (tcp_connected sock) then teardown ;; ret true
        else
          received <- receive max_request_size ;;
          match received with
          | Some request => _ <- handle_rtsp_request request ;; ret false
          | None => ret false
          end
    end.

(** Modelled from the spec: [espp::Task] (task.hpp is not among the
    sources).  The worker bound to the session runs the callback in a loop
    until it returns the stop signal; [iterations] bounds the number of
    runs observed.  The result is [true] when the task stopped. *)
Fixpoint run_task (iterations : nat) : M bool :=
  match iterations with
  | O => ret false
  | S n =>
      stop <- control_task_fn ;;
      if stop then ret true else run_task n
  end.

(** ** Observations on a run *)

(** The control socket after [response] has been handed to [transmit]. *)
Definition wrote (response : string) (sock : TcpSocket) : TcpSocket :=
  snd (tcp_transmit sock response).

(** The session after [response] has been written on its control socket
    [sock]; every other member is as in [s]. *)
Definition after_response (response : string) (sock : TcpSocket)
    (s : RtspSession) : RtspSession :=
  set_control_socket (Some (wrote response sock)) s.

(** The texts written on the control stream so far, oldest first. *)
Definition responses (s : RtspSession) : list string :=
  match control_socket_ s with
  | Some sock => tcp_written sock
  | None => []
  end.

(** The session after [teardown()]. *)
Definition torn_down (s : RtspSession) : RtspSession :=
  set_closed true (set_session_active false s).

(** ** The formats of the specification *)

(** Response format (Response Writer): status line, optional [CSeq] line,
    the caller's header block, then either [Content-Length], a blank line
    and the body, or a lone blank line. *)
Definition response_text (code : Z) (phrase : string) (cseq : option Z)
    (headers : string) (body : option string) : string :=
  "RTSP/1.0 " ++ to_string code ++ " " ++ phrase ++ CRLF ++
  match cseq with
  | Some n => "CSeq: " ++ to_string n ++ CRLF
  | None => EmptyString
  end ++
  headers ++
  match body with
  | Some b => "Content-Length: " ++ to_string (size b) ++ CRLF ++ CRLF ++ b
  | None => CRLF
  end.

(** The sequence number argument of [send_response] is optional: the
    default [-1] stands for "not supplied". *)
Definition supplied_cseq (sequence_number : Z) : option Z :=
  if sequence_number =? -1 then None else Some sequence_number.

(** The sequence number echoed by a 400 response: the one the CSeq parser
    found, if any, unless it is the reserved [-1]. *)
Definition echoed_cseq (cseq : option Z) : option Z :=
  match cseq with
  | Some n => supplied_cseq n
  | None => None
  end.

(** The body argument is optional: the default empty text stands for "no
    body". *)
Definition supplied_body (body : string) : option string :=
  if empty body then None else Some body.

(** The RTSP URL of the session, [rtsp://<server_address>/<rtsp_path>]. *)
Definition rtsp_url (s : RtspSession) : string :=
  "rtsp://" ++ server_address_ s ++ "/" ++ rtsp_path_ s.

(** The lines of the session description (SDP Generator), without their
    line ends. *)
Definition sdp_lines (s : RtspSession) : list string :=
  [ "v=0";
    "o=- " ++ to_string (session_id_ s) ++ " 1 IN IP4 " ++ server_address_ s;
    "s=MJPEG Stream";
    "i=MJPEG Stream";
    "t=0 0";
    "a=control:" ++ rtsp_url s;
    "a=mimetype:string;" ++ String DQUOTE "video/x-motion-jpeg"
      ++ String DQUOTE EmptyString;
    "m=video 0 RTP/AVP 26";
    "c=IN IP4 0.0.0.0";
    "b=AS:256";
    "a=control:" ++ rtsp_url s;
    "a=udp-only" ].

(** Every line followed by [CR LF]. *)
Fixpoint crlf_terminated (lines : list string) : string :=
  match lines with
  | [] => EmptyString
  | l :: rest => l ++ CRLF ++ crlf_terminated rest
  end.

(** The [CR LF]-terminated lines of a text, in order; text after the last
    [CR LF] is not a line. *)
Fixpoint crlf_lines (text : string) (line : string) : list string :=
  match text with
  | EmptyString => []
  | String a t =>
      if Ascii.eqb a CR
      then match t with
           | String b t' =>
               if Ascii.eqb b LF then line :: crlf_lines t' EmptyString
               else crlf_lines t (line ++ String a EmptyString)
           | EmptyString => []
           end
      else crlf_lines t (line ++ String a EmptyString)
  end.

(** The body of a response: the text after the first blank line. *)
Definition response_body (response : string) : string :=
  match index_str (CRLF ++ CRLF) response with
  | Some i => drop (i + 4) response
  | None => EmptyString
  end.

(** Whether [needle] occurs in [s]. *)
Definition contains (s needle : string) : bool :=
  match index_str needle s with
  | Some _ => true
  | None => false
  end.

(** Numerals: the value of a non-empty text made of decimal digits only. *)
Fixpoint all_digits (s : string) : bool :=
  match s with
  | EmptyString => true
  | String a t => (isdigit a && all_digits t)%bool
  end.

Definition decimal_value (d : string) : option Z :=
  match d with
  | EmptyString => None
  | String _ _ => if all_digits d then read_digits d None else None
  end.

(** The text that follows the first occurrence of [key] in [body]. *)
Definition text_after (key body : string) : option string :=
  match index_str key body with
  | Some i => Some (drop (i + String.length key) body)
  | None => None
  end.

(** The value of the [Transport] header of a request body: the text between
    the first "Transport: " and the next [CR]. *)
Definition transport_header (body : string) : option string :=
  match index_str "Transport: " body with
  | None => None
  | Some i =>
      let rest := drop (i + 11) body in
      match index_char CR rest with
      | None => None
      | Some j => Some (take j rest)
      end
  end.

(** The position of the second space of a request buffer. *)
Definition second_space (request : string) : option nat :=
  match index_char SP request with
  | None => None
  | Some i =>
      option_map (fun j => (i + 1 + j)%nat)
        (index_char SP (drop (i + 1) request))
  end.

(** The method of a request: the text before the first space. *)
Definition request_method (request : string) : option string :=
  option_map (fun i => take i request) (index_char SP request).

(** The body handed to the handlers: the text two characters after the
    first [CR] of the request. *)
Definition request_body (request : string) : option string :=
  match index_char CR request with
  | Some e =>
      if (e + 2 <=? String.length request)%nat
      then Some (drop (e + 2) request)
      else None
  | None => None
  end.

(** The handler of a method. *)
Definition handler_of (method : string) : string -> M bool :=
  if String.eqb method "OPTIONS" then handle_rtsp_options
  else if String.eqb method "DESCRIBE" then handle_rtsp_describe
  else if String.eqb method "SETUP" then handle_rtsp_setup
  else if String.eqb method "PLAY" then handle_rtsp_play
  else if String.eqb method "PAUSE" then handle_rtsp_pause
  else if String.eqb method "TEARDOWN" then handle_rtsp_teardown
  else handle_rtsp_invalid_request.

(** What the check of [handle_rtsp_request] detects: the buffer as a whole
    holds fewer than two spaces, or no [CR].  The spaces are counted over
    the whole buffer, headers included, not over the first line. *)
Definition cannot_split_request (request : string) : Prop :=
  index_char SP request = None \/ second_space request = None
  \/ index_char CR request = None.

(** The first line of a request buffer: the text before its first [CR], the
    whole buffer when it holds none. *)
Definition first_line (request : string) : string :=
  match index_char CR request with
  | Some e => take e request
  | None => request
  end.

(** A malformed first line, in the words of the specification: the first
    line is missing one of its first two spaces, or the buffer holds no
    [CR]. *)
Definition first_line_malformed (request : string) : Prop :=
  second_space (first_line request) = None
  \/ index_char CR request = None.

(** The two parts of a text around its first [c]. *)
Definition split_at (c : ascii) (s : string) : option (string * string) :=
  match index_char c s with
  | Some i => Some (take i s, drop (i + 1) s)
  | None => None
  end.

(** The client ports of a SETUP body, read as the specification says:
    within the value of the Transport header, after "client_port=", the
    numeral of the RTP port, a dash and the numeral of the RTCP port. *)
Definition transport_client_ports (body : string) : option (Z * Z) :=
  match transport_header body with
  | None => None
  | Some value =>
      match text_after "client_port=" value with
      | None => None
      | Some ports =>
          match split_at DASH ports with
          | None => None
          | Some (rtp_port, rtcp_port) =>
              match decimal_value rtp_port, decimal_value rtcp_port with
              | Some N, Some M => Some (N, M)
              | _, _ => None
              end
          end
      end
  end.

(** The text between the first two spaces of a SETUP request body, which
    [parse_rtsp_setup_request] requires to be non-empty before it looks at
    the headers; with a single space, the text after it; without a space,
    the whole body. *)
Definition path_field (body : string) : string :=
  match index_char SP body with
  | None => body
  | Some i =>
      let rest := drop (i + 1) body in
      match index_char SP rest with
      | None => rest
      | Some j => take j rest
      end
  end.

(** ** A concrete session and the requests of the end-to-end scenarios *)

Definition example_socket : TcpSocket :=
  {| tcp_connected := true; tcp_transmit_ok := true;
     tcp_written := []; tcp_incoming := [] |}.

Definition example_udp : UdpSocket := {| udp_send_ok := true; udp_sent := [] |}.

Definition example_session : RtspSession :=
  {| control_socket_ := Some example_socket;
     rtp_socket_ := example_udp; rtcp_socket_ := example_udp;
     session_id_ := 305419896; closed_ := false; session_active_ := false;
     server_address_ := "host"; rtsp_path_ := "stream";
     client_address_ := "192.168.1.20";
     client_rtp_port_ := 0; client_rtcp_port_ := 0 |}.

(** The same session once its control stream is down. *)
Definition disconnected_session : RtspSession :=
  set_control_socket
    (Some {| tcp_connected := false; tcp_transmit_ok := false;
             tcp_written := []; tcp_incoming := [] |})
    example_session.

Definition options_request : string :=
  "OPTIONS rtsp://host/stream RTSP/1.0" ++ CRLF ++ "CSeq: 1" ++ CRLF ++ CRLF.

Definition describe_body : string := "CSeq: 2" ++ CRLF ++ CRLF.

Definition setup_body : string :=
  "CSeq: 3" ++ CRLF ++
  "Transport: RTP/AVP;unicast;client_port=5000-5001" ++ CRLF ++ CRLF.

Definition setup_request : string :=
  "SETUP rtsp://host/stream RTSP/1.0" ++ CRLF ++ setup_body.

Definition setup_tcp_body : string :=
  "CSeq: 3" ++ CRLF ++
  "Transport: RTP/AVP/TCP;unicast;interleaved=0-1" ++ CRLF ++ CRLF.

Definition play_body : string := "CSeq: 4" ++ CRLF ++ CRLF.

(** A SETUP body whose sequence number is [-1]. *)
Definition setup_body_cseq_minus_one : string :=
  "CSeq: -1" ++ CRLF ++
  "Transport: RTP/AVP;unicast;client_port=5000-5001" ++ CRLF ++ CRLF.

(** A SETUP body asking for TCP transport in which two spaces follow
    "CSeq:". *)
Definition setup_tcp_body_two_spaces : string :=
  "CSeq:  3" ++ CRLF ++
  "Transport: RTP/AVP/TCP;unicast;interleaved=0-1" ++ CRLF ++ CRLF.

(** A request without its two spaces, carrying a [CSeq] header. *)
Definition request_without_spaces : string :=
  "OPTIONS" ++ CRLF ++ "CSeq: 5" ++ CRLF ++ CRLF.

(** A request cut before the end of its first line. *)
Definition request_without_cr : string := "OPTIONS rtsp://host/stream RTSP/1.0".

(** A request whose [CSeq] value is not a number. *)
Definition cseq_not_a_number : string := "CSeq: abc" ++ CRLF ++ CRLF.

(** A SETUP body with a [Transport] header and no [client_port=]. *)
Definition setup_body_without_client_port : string :=
  "CSeq: 3" ++ CRLF ++ "Transport: RTP/AVP;unicast" ++ CRLF ++ CRLF.

(** A SETUP body without [client_port=] in which numbers stand at offsets
    0 and 11. *)
Definition setup_body_stray_numbers : string :=
  "1 CSeq: 3" ++ CRLF ++ " 7Transport: RTP/AVP" ++ CRLF ++ CRLF.

(** A SETUP body with UDP ports in which two spaces follow "CSeq:". *)
Definition setup_body_two_spaces : string :=
  "CSeq:  3" ++ CRLF ++
  "Transport: RTP/AVP;unicast;client_port=5000-5001" ++ CRLF ++ CRLF.

(** A SETUP body in which a header before Transport mentions
    "client_port=". *)
Definition setup_body_earlier_client_port : string :=
  "CSeq: 3" ++ CRLF ++
  "X-Note: client_port=1-2" ++ CRLF ++
  "Transport: RTP/AVP;unicast;client_port=5000-5001" ++ CRLF ++ CRLF.


(** The six requests of a whole session, as the client sends them. *)
Definition session_requests : list (option string) :=
  [ Some options_request;
    Some ("DESCRIBE rtsp://host/stream RTSP/1.0" ++ CRLF ++ describe_body);
    Some setup_request;
    Some ("PLAY rtsp://host/stream RTSP/1.0" ++ CRLF ++ play_body);
    Some ("PAUSE rtsp://host/stream RTSP/1.0" ++ CRLF ++ "CSeq: 5" ++ CRLF
          ++ CRLF);
    Some ("TEARDOWN rtsp://host/stream RTSP/1.0" ++ CRLF ++ "CSeq: 6" ++ CRLF
          ++ CRLF) ].

(** The example session with these requests pending on its control stream. *)
Definition session_with_requests : RtspSession :=
  set_control_socket
    (Some {| tcp_connected := true; tcp_transmit_ok := true;
             tcp_written := []; tcp_incoming := session_requests |})
    example_session.

(** ** The response of an accepted SETUP *)

Definition setup_response (s : RtspSession) (n rtp_port rtcp_port : Z)
  : string :=
  "RTSP/1.0 200 OK" ++ CRLF ++
  "CSeq: " ++ to_string n ++ CRLF ++
  "Session: " ++ to_string (get_session_id s) ++ CRLF ++
  "Transport: RTP/AVP;unicast;client_port=" ++ to_string rtp_port ++ "-"
    ++ to_string rtcp_port ++ CRLF ++
  CRLF.

(** The response of DESCRIBE with [lines] as the session description. *)
Definition describe_response (s : RtspSession) (sequence_number : Z)
    (lines : list string) : string :=
  response_text 200 "OK" (supplied_cseq sequence_number)
    ("Content-Type: application/sdp" ++ CRLF ++
     "Content-Base: " ++ rtsp_url s ++ CRLF)
    (Some (crlf_terminated lines)).

(** ** Statements that the code does not satisfy *)

(** Every accepted SETUP is answered with its own sequence number. *)
Definition setup_echoes_every_cseq (s : RtspSession) (body : string) : Prop :=
  forall sock path N M n,
    control_socket_ s = Some sock ->
    fst (parse_rtsp_setup_request body s) = Ret (Some (path, N, M)) ->
    parse_rtsp_command_sequence body = Ret (Some n) ->
    handle_rtsp_setup body s =
      (Ret (tcp_transmit_ok sock),
       after_response (setup_response s n N M) sock
         (set_client_rtcp_port M (set_client_rtp_port N s))).

(** The session description of DESCRIBE has [k] lines. *)
Definition describe_body_line_count (k : nat) (s : RtspSession)
    (body : string) : Prop :=
  forall sock n,
    control_socket_ s = Some sock ->
    parse_rtsp_command_sequence body = Ret (Some n) ->
    exists response,
      handle_rtsp_describe body s =
        (Ret (tcp_transmit_ok sock), after_response response sock s)
      /\ List.length (crlf_lines (response_body response) EmptyString) = k.

(** Every SETUP whose Transport header names TCP is answered 461. *)
Definition tcp_transport_always_461 (s : RtspSession) (body : string) : Prop :=
  forall sock transport,
    control_socket_ s = Some sock ->
    transport_header body = Some transport ->
    contains transport "RTP/AVP/TCP" = true ->
    handle_rtsp_setup body s =
      (Ret false,
       after_response ("RTSP/1.0 461 Unsupported Transport" ++ CRLF ++ CRLF)
         sock s).

(** The media send operations emit nothing unless the session is active. *)
Definition media_gated_on_active (s : RtspSession) : Prop :=
  forall packet,
    is_active s = false ->
    udp_sent (rtp_socket_ (snd (send_rtp_packet packet s)))
      = udp_sent (rtp_socket_ s)
    /\ udp_sent (rtcp_socket_ (snd (send_rtcp_packet packet s)))
      = udp_sent (rtcp_socket_ s).

(** A malformed first line is answered 400 without a CSeq header. *)
Definition malformed_line_400_without_cseq (s : RtspSession)
    (request : string) : Prop :=
  forall sock,
    control_socket_ s = Some sock ->
    size request <= max_request_size ->
    first_line_malformed request ->
    handle_rtsp_request request s =
      (Ret (tcp_transmit_ok sock),
       after_response ("RTSP/1.0 400 Bad Request" ++ CRLF ++ CRLF) sock s).

(** ** What a run of a member function leaves in place *)

(** [post Q m]: the session after [m], returned or thrown, is related by
    [Q] to the session before. *)
Definition post (Q : RtspSession -> RtspSession -> Prop) {A : Type}
    (m : M A) : Prop :=
  forall s, Q s (snd (m s)).

(** The three status lines the handlers pass to [send_response]. *)
Definition status_in_use (code : Z) (message : string) : Prop :=
  (code = 200 /\ message = "OK")
  \/ (code = 400 /\ message = "Bad Request")
  \/ (code = 461 /\ message = "Unsupported Transport").

(** A response that starts with one of these status lines. *)
Definition known_status (response : string) : Prop :=
  String.prefix ("RTSP/1.0 200 OK" ++ CRLF) response = true
  \/ String.prefix ("RTSP/1.0 400 Bad Request" ++ CRLF) response = true
  \/ String.prefix ("RTSP/1.0 461 Unsupported Transport" ++ CRLF) response
     = true.

(** [session_kept n s s']: from [s] to [s'] the session id, the server
    address, the RTSP path, the client address and the two UDP sockets are
    unchanged, a closed session is still closed, and the control stream
    has received at most [n] further responses, each with a known status
    line. *)
Definition session_kept (n : nat) (s s' : RtspSession) : Prop :=
  session_id_ s' = session_id_ s
  /\ server_address_ s' = server_address_ s
  /\ rtsp_path_ s' = rtsp_path_ s
  /\ client_address_ s' = client_address_ s
  /\ rtp_socket_ s' = rtp_socket_ s
  /\ rtcp_socket_ s' = rtcp_socket_ s
  /\ (closed_ s = true -> closed_ s' = true)
  /\ exists new,
       responses s' = (responses s ++ new)%list
       /\ (List.length new <= n)%nat
       /\ List.Forall known_status new.

(** [flags_kept s s']: the closed flag and the active flag are unchanged. *)
Definition flags_kept (s s' : RtspSession) : Prop :=
  closed_ s' = closed_ s /\ session_active_ s' = session_active_ s.

(** [ports_kept s s']: the recorded client ports are unchanged. *)
Definition ports_kept (s s' : RtspSession) : Prop :=
  client_rtp_port_ s' = client_rtp_port_ s
  /\ client_rtcp_port_ s' = client_rtcp_port_ s.

(** A request made of a request line and a body. *)
Definition request_text (method path version body : string) : string :=
  method ++ " " ++ path ++ " " ++ version ++ CRLF ++ body.

(** The six methods with a handler of their own. *)
Definition supported_method (method : string) : bool :=
  (String.eqb method "OPTIONS" || String.eqb method "DESCRIBE"
   || String.eqb method "SETUP" || String.eqb method "PLAY"
   || String.eqb method "PAUSE" || String.eqb method "TEARDOWN")%bool.

(** The 200 OK response of PLAY, PAUSE and TEARDOWN: the sequence number,
    the session id, then the headers proper to the method. *)
Definition ok_with_session (s : RtspSession) (n : Z) (more_headers : string)
  : string :=
  "RTSP/1.0 200 OK" ++ CRLF ++
  "CSeq: " ++ to_string n ++ CRLF ++
  "Session: " ++ to_string (get_session_id s) ++ CRLF ++
  more_headers ++
  CRLF.

(** The 400 response without a sequence number. *)
Definition bad_request_response : string :=
  "RTSP/1.0 400 Bad Request" ++ CRLF ++ CRLF.

(** A SETUP body with its ports and no CSeq header. *)
Definition setup_body_without_cseq : string :=
  "Transport: RTP/AVP;unicast;client_port=5000-5001" ++ CRLF ++ CRLF.

(** A SETUP body without a Transport header. *)
Definition setup_body_without_transport : string :=
  "CSeq: 3" ++ CRLF ++ CRLF.

(** A request with its two spaces whose CR is its last character. *)
Definition request_ending_at_cr : string :=
  "OPTIONS rtsp://host/stream RTSP/1.0" ++ String CR EmptyString.

(** ** Proof automation *)

(** Case analysis on the scrutinee of a match of the goal. *)
Ltac break_match :=
  match goal with
  | |- context [match ?x with _ => _ end] => destruct x eqn:?
  end.

(** Runs the binds of the small member functions. *)
Ltac run_members :=
  cbv beta iota delta [bind play pause teardown modify get ret lift].

(** Closes the seven member equations of [session_kept] for a setter. *)
Ltac member_kept :=
  intros; do 7 (split; [tauto|]); reflexivity.

(** * Properties *)

(** ** Text *)

Lemma append_empty_r (s : string) : s ++ EmptyString = s.
Proof. induction s as [|a s IH]; simpl; [reflexivity | now rewrite IH]. Qed.

Lemma append_assoc (a b c : string) : (a ++ b) ++ c = a ++ (b ++ c).
Proof. induction a as [|x a IH]; simpl; [reflexivity | now rewrite IH]. Qed.

Lemma length_append (a b : string) :
  String.length (a ++ b) = (String.length a + String.length b)%nat.
Proof. induction a as [|x a IH]; simpl; [reflexivity | now rewrite IH]. Qed.

Lemma empty_true (s : string) : empty s = true -> s = EmptyString.
Proof. destruct s; [reflexivity | discriminate]. Qed.

Lemma append_optional (r h : string) :
  (if negb (empty h) then r ++ h else r) = r ++ h.
Proof. destruct h; simpl; [now rewrite append_empty_r | reflexivity]. Qed.

(** ** Positions in a text *)

Lemma size_nonneg (s : string) : 0 <= size s.
Proof. unfold size. lia. Qed.

Lemma drop_0 (s : string) : drop 0 s = s.
Proof. destruct s; reflexivity. Qed.

Lemma length_drop (n : nat) (s : string) :
  String.length (drop n s) = (String.length s - n)%nat.
Proof.
  revert s. induction n as [|n IH]; intros [|a s]; simpl; auto.
Qed.

Lemma drop_drop (n m : nat) (s : string) : drop n (drop m s) = drop (m + n) s.
Proof.
  revert s. induction m as [|m IH]; intros s; simpl.
  - reflexivity.
  - destruct s as [|a s]; [destruct n; reflexivity | apply IH].
Qed.

Lemma drop_all (n : nat) (s : string) :
  (String.length s <= n)%nat -> drop n s = EmptyString.
Proof.
  revert s. induction n as [|n IH]; intros [|a s] H; simpl in *;
    try reflexivity; try lia.
  apply IH. lia.
Qed.

Lemma take_all (n : nat) (s : string) :
  (String.length s <= n)%nat -> take n s = s.
Proof.
  revert s. induction n as [|n IH]; intros [|a s] H; simpl in *;
    try reflexivity; try lia.
  f_equal. apply IH. lia.
Qed.

Lemma length_take (n : nat) (s : string) :
  String.length (take n s) = Nat.min n (String.length s).
Proof.
  revert s. induction n as [|n IH]; intros [|a s]; simpl; auto.
Qed.

Lemma drop_append (a b : string) : drop (String.length a) (a ++ b) = b.
Proof. induction a as [|x a IH]; simpl; [reflexivity | exact IH]. Qed.

Lemma index_char_bound c s i :
  index_char c s = Some i -> (i < String.length s)%nat.
Proof.
  revert i. induction s as [|a s IH]; intros i; simpl; [discriminate|].
  destruct (Ascii.eqb a c).
  - intros [= <-]. lia.
  - destruct (index_char c s) as [j|]; [|discriminate].
    intros [= <-]. specialize (IH j eq_refl). lia.
Qed.

Lemma prefix_split (p s : string) :
  String.prefix p s = true -> s = p ++ drop (String.length p) s.
Proof.
  revert s. induction p as [|a p IH]; intros s H; simpl.
  - reflexivity.
  - destruct s as [|b s]; simpl in H; [discriminate|].
    destruct (ascii_dec a b) as [->|]; [|discriminate].
    f_equal. now apply IH.
Qed.

Lemma prefix_length (p s : string) :
  String.prefix p s = true -> (String.length p <= String.length s)%nat.
Proof.
  intros H. rewrite (prefix_split p s H), length_append. lia.
Qed.

Lemma index_str_found needle s i :
  index_str needle s = Some i ->
  String.prefix needle (drop i s) = true
  /\ (i + String.length needle <= String.length s)%nat.
Proof.
  revert i. induction s as [|a s IH]; intros i; cbn [index_str].
  - destruct (String.prefix needle EmptyString) eqn:Hp; [|discriminate].
    intros [= <-]. split; [exact Hp|].
    apply prefix_length in Hp. simpl in *. lia.
  - destruct (String.prefix needle (String a s)) eqn:Hp.
    + intros [= <-]. split; [exact Hp|].
      apply prefix_length in Hp. simpl in *. lia.
    + destruct (index_str needle s) as [j|]; [|discriminate].
      intros [= <-]. destruct (IH j eq_refl) as [H1 H2]. split; [exact H1|].
      simpl. lia.
Qed.

Lemma index_str_empty (needle : string) :
  needle <> EmptyString -> index_str needle EmptyString = None.
Proof. destruct needle; [congruence | reflexivity]. Qed.

(** ** size_t arithmetic on positions *)

Lemma npos_value : npos = 4294967295.
Proof. reflexivity. Qed.

Lemma wrap_small (z : Z) : 0 <= z <= npos -> size_t.wrap z = z.
Proof.
  intros H. unfold size_t.wrap. apply Z.mod_small.
  rewrite npos_value in H. change size_t.modulus with 4294967296. lia.
Qed.

Lemma add_small (a b : Z) : 0 <= a + b <= npos -> size_t.add a b = a + b.
Proof. intros H. unfold size_t.add. now apply wrap_small. Qed.

Lemma sub_small (a b : Z) : 0 <= a - b <= npos -> size_t.sub a b = a - b.
Proof. intros H. unfold size_t.sub. now apply wrap_small. Qed.

Lemma add_npos_1 : size_t.add npos 1 = 0.
Proof. reflexivity. Qed.

Lemma size_below_npos (s : string) :
  size s <= max_request_size -> size s < npos.
Proof. unfold max_request_size. rewrite npos_value. lia. Qed.

(** ** string_view operations in terms of offsets *)

Lemma find_char_0 (s : string) (c : ascii) :
  find_char s c 0 =
    match index_char c s with
    | Some i => Z.of_nat i
    | None => npos
    end.
Proof.
  unfold find_char. destruct (Z.leb_spec (size s) 0) as [H|H].
  - destruct s; [reflexivity|]. unfold size in H. simpl in H. lia.
  - simpl. destruct (index_char c s); reflexivity.
Qed.

Lemma find_0 (s needle : string) :
  needle <> EmptyString ->
  find s needle 0 =
    match index_str needle s with
    | Some i => Z.of_nat i
    | None => npos
    end.
Proof.
  intros Hn. unfold find. destruct (Z.leb_spec (size s) 0) as [H|H].
  - destruct s; [now rewrite index_str_empty|].
    unfold size in H. simpl in H. lia.
  - simpl. destruct (index_str needle s); reflexivity.
Qed.

Lemma find_char_at (s : string) (c : ascii) (pos : nat) :
  find_char s c (Z.of_nat pos) =
    match index_char c (drop pos s) with
    | Some i => Z.of_nat pos + Z.of_nat i
    | None => npos
    end.
Proof.
  unfold find_char. rewrite Nat2Z.id.
  destruct (Z.leb_spec (size s) (Z.of_nat pos)) as [H|H]; [|reflexivity].
  rewrite drop_all; [reflexivity|]. unfold size in H. lia.
Qed.

Lemma substr_at (s : string) (pos count : nat) :
  (pos <= String.length s)%nat ->
  (count <= String.length s - pos)%nat ->
  substr s (Z.of_nat pos) (Z.of_nat count) = Ret (take count (drop pos s)).
Proof.
  intros Hp Hc. unfold substr, size.
  destruct (Z.ltb_spec (Z.of_nat (String.length s)) (Z.of_nat pos)); [lia|].
  rewrite Nat2Z.id. do 2 f_equal. lia.
Qed.

Lemma substr_to_end (s : string) (pos : nat) (count : Z) :
  (pos <= String.length s)%nat ->
  size s - Z.of_nat pos <= count ->
  substr s (Z.of_nat pos) count = Ret (drop pos s).
Proof.
  intros Hp Hc. unfold substr, size in *.
  destruct (Z.ltb_spec (Z.of_nat (String.length s)) (Z.of_nat pos)); [lia|].
  rewrite Nat2Z.id. f_equal. apply take_all. rewrite length_drop. lia.
Qed.

(** ** Numerals, [std::stoi] and [std::to_string] *)

Lemma isdigit_not_space (a : ascii) : isdigit a = true -> isspace a = false.
Proof.
  destruct a as [[] [] [] [] [] [] [] []]; vm_compute; congruence.
Qed.

Lemma isdigit_not_sign (a : ascii) :
  isdigit a = true -> Ascii.eqb a "-" = false /\ Ascii.eqb a "+" = false.
Proof.
  destruct a as [[] [] [] [] [] [] [] []]; vm_compute; intuition congruence.
Qed.

Lemma isdigit_not_cr_dash_space (a : ascii) :
  isdigit a = true ->
  Ascii.eqb a CR = false /\ Ascii.eqb a DASH = false /\ Ascii.eqb a SP = false.
Proof.
  destruct a as [[] [] [] [] [] [] [] []]; vm_compute; intuition congruence.
Qed.

Lemma digit_value_range (a : ascii) :
  isdigit a = true -> 0 <= digit_value a <= 9.
Proof.
  destruct a as [[] [] [] [] [] [] [] []]; vm_compute; intuition congruence.
Qed.

Lemma read_digits_all (d : string) (acc : option Z) :
  d <> EmptyString -> all_digits d = true -> 0 <= acc_value acc ->
  exists v, read_digits d acc = Some v /\ 0 <= v.
Proof.
  revert acc. induction d as [|a d IH]; intros acc Hne Hd Hacc; [congruence|].
  simpl in Hd. apply andb_prop in Hd. destruct Hd as [Ha Hd].
  cbn [read_digits]. rewrite Ha.
  pose proof (digit_value_range a Ha) as Hr.
  destruct d as [|b d].
  - cbn [read_digits]. eexists. split; [reflexivity|]. lia.
  - apply IH; [discriminate | exact Hd | cbn [acc_value]; lia].
Qed.

Lemma stoi_numeral (d : string) (n : Z) :
  decimal_value d = Some n -> n <= INT_MAX -> stoi d = Ret n.
Proof.
  unfold decimal_value. destruct d as [|a d]; [discriminate|].
  destruct (all_digits (String a d)) eqn:Hd; [|discriminate].
  intros Hv Hmax.
  destruct (read_digits_all (String a d) None ltac:(discriminate) Hd
              ltac:(simpl; lia)) as (v & Hv' & Hpos).
  rewrite Hv in Hv'. injection Hv' as <-.
  simpl in Hd. apply andb_prop in Hd. destruct Hd as [Ha _].
  unfold stoi. cbn [skip_spaces]. rewrite (isdigit_not_space a Ha).
  destruct (isdigit_not_sign a Ha) as [-> ->].
  rewrite Hv.
  destruct (Z.leb_spec INT_MIN n) as [_|H]; [|unfold INT_MIN in H; lia].
  destruct (Z.leb_spec n INT_MAX) as [_|H]; [reflexivity | lia].
Qed.

Lemma decimal_value_nonneg (d : string) (n : Z) :
  decimal_value d = Some n -> 0 <= n.
Proof.
  unfold decimal_value. destruct d as [|a d]; [discriminate|].
  destruct (all_digits (String a d)) eqn:Hd; [|discriminate].
  intros Hv.
  destruct (read_digits_all (String a d) None ltac:(discriminate) Hd
              ltac:(simpl; lia)) as (v & Hv' & Hpos).
  rewrite Hv in Hv'. now injection Hv' as <-.
Qed.

Lemma digit_char_digit (d : Z) :
  0 <= d <= 9 ->
  isdigit (digit_char d) = true /\ digit_value (digit_char d) = d.
Proof.
  intros H.
  assert (E : d = 0 \/ d = 1 \/ d = 2 \/ d = 3 \/ d = 4 \/ d = 5 \/ d = 6
              \/ d = 7 \/ d = 8 \/ d = 9) by lia.
  repeat (destruct E as [->|E]; [split; reflexivity|]). subst d.
  split; reflexivity.
Qed.

Lemma all_digits_decimal (fuel : nat) (n : Z) (acc : string) :
  0 <= n -> all_digits acc = true -> all_digits (decimal fuel n acc) = true.
Proof.
  revert n acc. induction fuel as [|f IH]; intros n acc Hn Hacc.
  - simpl. destruct (digit_char_digit (n mod 10)) as [-> _];
      [pose proof (Z.mod_pos_bound n 10); lia | exact Hacc].
  - cbn [decimal].
    assert (Hd : all_digits (String (digit_char (n mod 10)) acc) = true).
    { simpl. destruct (digit_char_digit (n mod 10)) as [-> _];
        [pose proof (Z.mod_pos_bound n 10); lia | exact Hacc]. }
    destruct (n <? 10); [exact Hd|].
    apply IH; [apply Z.div_pos; lia | exact Hd].
Qed.

Lemma decimal_not_empty (fuel : nat) (n : Z) (acc : string) :
  decimal fuel n acc <> EmptyString.
Proof.
  revert n acc. induction fuel as [|f IH]; intros n acc; cbn [decimal].
  - discriminate.
  - destruct (n <? 10); [discriminate | apply IH].
Qed.

Lemma read_digits_decimal (fuel : nat) (n : Z) :
  0 <= n < 2 ^ (Z.of_nat fuel + 1) ->
  exists scale : Z,
    forall acc a,
      read_digits (decimal fuel n acc) a
      = read_digits acc (Some (scale * acc_value a + n)).
Proof.
  revert n. induction fuel as [|f IH]; intros n Hn.
  - exists 10. intros acc a. cbn [decimal read_digits].
    change (2 ^ (Z.of_nat 0 + 1)) with 2 in Hn.
    rewrite Z.mod_small by lia.
    destruct (digit_char_digit n) as [-> ->]; [lia|]. reflexivity.
  - destruct (Z.ltb_spec n 10) as [Hlt|Hge].
    + exists 10. intros acc a. cbn [decimal read_digits].
      destruct (Z.ltb_spec n 10); [|lia].
      cbn [read_digits]. rewrite Z.mod_small by lia.
      destruct (digit_char_digit n) as [-> ->]; [lia|]. reflexivity.
    + assert (Hq : 0 <= n / 10 < 2 ^ (Z.of_nat f + 1)).
      { split; [apply Z.div_pos; lia|].
        apply Z.div_lt_upper_bound; [lia|].
        replace (Z.of_nat (S f) + 1) with (Z.succ (Z.of_nat f + 1)) in Hn
          by lia.
        rewrite Z.pow_succ_r in Hn by lia. lia. }
      destruct (IH (n / 10) Hq) as [scale Hs].
      exists (10 * scale). intros acc a. cbn [decimal].
      destruct (Z.ltb_spec n 10); [lia|].
      rewrite Hs. cbn [read_digits].
      destruct (digit_char_digit (n mod 10)) as [-> ->];
        [pose proof (Z.mod_pos_bound n 10); lia|].
      cbn [acc_value]. do 2 f_equal.
      pose proof (Z.div_mod n 10 ltac:(lia)). lia.
Qed.

(** [std::to_string] of a non-negative number is a numeral of that number,
    so [std::stoi] reads back what [std::to_string] wrote. *)
Lemma decimal_value_to_string (n : Z) :
  0 <= n -> decimal_value (to_string n) = Some n.
Proof.
  intros Hn. unfold to_string. destruct (Z.ltb_spec n 0); [lia|].
  set (fuel := Z.to_nat (Z.log2 n)).
  assert (Hb : 0 <= n < 2 ^ (Z.of_nat fuel + 1)).
  { split; [exact Hn|]. unfold fuel.
    rewrite Z2Nat.id by apply Z.log2_nonneg.
    destruct (Z.eq_dec n 0) as [->|Hnz]; [reflexivity|].
    replace (Z.log2 n + 1) with (Z.succ (Z.log2 n)) by lia.
    apply Z.log2_spec. lia. }
  unfold decimal_value.
  destruct (decimal fuel n EmptyString) as [|a d] eqn:E.
  - exfalso. exact (decimal_not_empty _ _ _ E).
  - rewrite <- E. rewrite all_digits_decimal by (try reflexivity; lia).
    destruct (read_digits_decimal fuel n Hb) as [scale Hs].
    rewrite Hs. simpl. f_equal. lia.
Qed.

Lemma stoi_to_string (n : Z) : 0 <= n <= INT_MAX -> stoi (to_string n) = Ret n.
Proof.
  intros [H0 H1].
  apply stoi_numeral; [now apply decimal_value_to_string | exact H1].
Qed.

(** ** The monad *)

Lemma bind_ret_run {A B} (m : M A) (k : A -> M B) (s s' : RtspSession) (a : A) :
  m s = (Ret a, s') -> bind m k s = k a s'.
Proof. intros H. unfold bind. now rewrite H. Qed.

Lemma bind_throw_run {A B} (m : M A) (k : A -> M B) (s s' : RtspSession) e :
  m s = (Throw e, s') -> bind m k s = (Throw e, s').
Proof. intros H. unfold bind. now rewrite H. Qed.

Lemma bind_lift_ret {A B} (o : outcome A) (k : A -> M B) s a :
  o = Ret a -> bind (lift o) k s = k a s.
Proof. intros ->. reflexivity. Qed.

(** ** Writing on the control stream *)

Lemma transmit_run (response : string) (s : RtspSession) (sock : TcpSocket) :
  control_socket_ s = Some sock ->
  transmit response s =
    (Ret (tcp_transmit_ok sock), after_response response sock s).
Proof.
  intros H. unfold transmit, bind, get. rewrite H. reflexivity.
Qed.

Lemma send_response_run code message sequence_number headers body s sock :
  control_socket_ s = Some sock ->
  send_response code message sequence_number headers body s =
    (Ret (tcp_transmit_ok sock),
     after_response
       (response_text code message (supplied_cseq sequence_number) headers
          (supplied_body body))
       sock s).
Proof.
  intros H. unfold send_response. rewrite (transmit_run _ _ _ H).
  do 2 f_equal. unfold response_text, supplied_cseq, supplied_body.
  rewrite append_optional.
  destruct (sequence_number =? -1); destruct (empty body); simpl negb; cbv iota;
    repeat rewrite append_assoc; reflexivity.
Qed.

(** ** What the parsers read *)

Lemma parse_cseq_absent (request : string) :
  contains request "CSeq: " = false ->
  parse_rtsp_command_sequence request = Ret None.
Proof.
  unfold contains, parse_rtsp_command_sequence. intros H.
  rewrite find_0 by discriminate.
  destruct (index_str "CSeq: " request); [discriminate|]. reflexivity.
Qed.

Lemma parse_rtsp_path_field (body : string) :
  size body < npos -> parse_rtsp_path body = Ret (path_field body).
Proof.
  intros Hsz. unfold parse_rtsp_path, path_field.
  rewrite (find_char_0 body SP).
  destruct (index_char SP body) as [i|] eqn:Hi.
  - pose proof (index_char_bound _ _ _ Hi) as Hb.
    unfold size in Hsz.
    rewrite add_small by lia.
    replace (Z.of_nat i + 1) with (Z.of_nat (i + 1)) by lia.
    rewrite find_char_at.
    destruct (index_char SP (drop (i + 1) body)) as [j|] eqn:Hj.
    + pose proof (index_char_bound _ _ _ Hj) as Hbj.
      rewrite length_drop in Hbj.
      rewrite (sub_small (Z.of_nat (i + 1) + Z.of_nat j)) by lia.
      rewrite sub_small by lia.
      replace (Z.of_nat (i + 1) + Z.of_nat j - Z.of_nat i - 1)
        with (Z.of_nat j) by lia.
      apply substr_at; lia.
    + rewrite (sub_small npos) by lia.
      rewrite sub_small by lia.
      apply substr_to_end; unfold size; lia.
  - rewrite add_npos_1. rewrite (find_char_0 body SP), Hi.
    change (size_t.sub (size_t.sub npos npos) 1) with npos.
    apply (substr_to_end body 0); [lia|]. lia.
Qed.

Lemma index_char_after_transport (rest : string) :
  index_char CR ("Transport: " ++ rest)
  = option_map (fun j => (11 + j)%nat) (index_char CR rest).
Proof. simpl. destruct (index_char CR rest); reflexivity. Qed.

(** The code's cut of the Transport header value is the text between
    "Transport: " and the next CR. *)
Lemma transport_header_cut (body v : string) :
  size body < npos ->
  transport_header body = Some v ->
  exists i j : nat,
    find body "Transport: " 0 = Z.of_nat i
    /\ find_char body CR (Z.of_nat i) = Z.of_nat (i + 11 + j)
    /\ (i + 11 + j < String.length body)%nat
    /\ substr body (size_t.add (Z.of_nat i) 11)
         (size_t.sub (size_t.sub (Z.of_nat (i + 11 + j)) (Z.of_nat i)) 11)
       = Ret v.
Proof.
  intros Hsz. unfold transport_header.
  destruct (index_str "Transport: " body) as [i|] eqn:Hi; [|discriminate].
  destruct (index_char CR (drop (i + 11) body)) as [j|] eqn:Hj; [|discriminate].
  intros [= <-]. exists i, j.
  destruct (index_str_found _ _ _ Hi) as [Hp Hlen]. simpl String.length in Hlen.
  pose proof (index_char_bound _ _ _ Hj) as Hbj. rewrite length_drop in Hbj.
  unfold size in Hsz.
  split; [|split; [|split]].
  - rewrite find_0 by discriminate. now rewrite Hi.
  - rewrite find_char_at.
    rewrite (prefix_split _ _ Hp). simpl String.length.
    rewrite drop_drop, index_char_after_transport, Hj. simpl. lia.
  - lia.
  - rewrite add_small by lia.
    rewrite (sub_small (Z.of_nat (i + 11 + j))) by lia.
    rewrite sub_small by lia.
    replace (Z.of_nat i + 11) with (Z.of_nat (i + 11)) by lia.
    replace (Z.of_nat (i + 11 + j) - Z.of_nat i - 11) with (Z.of_nat j) by lia.
    apply substr_at; lia.
Qed.

Lemma contains_find (s needle : string) :
  needle <> EmptyString ->
  size s < npos ->
  contains s needle = true ->
  (find s needle 0 =? npos) = false /\ empty s = false.
Proof.
  intros Hn Hsz. unfold contains. rewrite find_0 by exact Hn.
  destruct (index_str needle s) as [k|] eqn:Hk; [|discriminate].
  intros _. destruct (index_str_found _ _ _ Hk) as [_ Hlen].
  unfold size in Hsz. split.
  - apply Z.eqb_neq. lia.
  - destruct s; [|reflexivity]. destruct needle; [congruence|].
    simpl in Hlen. lia.
Qed.

Lemma substr_size (s r : string) (pos count : Z) :
  substr s pos count = Ret r -> size r <= size s.
Proof.
  unfold substr. destruct (size s <? pos); [discriminate|].
  intros [= <-]. unfold size. rewrite length_take, length_drop. lia.
Qed.

Lemma take_append (a b : string) : take (String.length a) (a ++ b) = a.
Proof. induction a as [|x a IH]; simpl; [reflexivity | now rewrite IH]. Qed.

Lemma index_char_digits (c : ascii) (d rest : string) :
  (forall a, isdigit a = true -> Ascii.eqb a c = false) ->
  all_digits d = true ->
  index_char c (d ++ rest)
  = option_map (fun j => (String.length d + j)%nat) (index_char c rest).
Proof.
  intros Hc. induction d as [|a d IH]; intros Hd.
  - simpl. destruct (index_char c rest); reflexivity.
  - simpl in Hd. apply andb_prop in Hd. destruct Hd as [Ha Hd].
    simpl. rewrite (Hc a Ha), (IH Hd).
    destruct (index_char c rest); reflexivity.
Qed.

Lemma index_char_numeral_stop (c : ascii) (d rest : string) (n : Z) :
  (forall a, isdigit a = true -> Ascii.eqb a c = false) ->
  decimal_value d = Some n ->
  index_char c (d ++ String c rest) = Some (String.length d).
Proof.
  intros Hc Hv. unfold decimal_value in Hv.
  destruct d as [|a d]; [discriminate|].
  destruct (all_digits (String a d)) eqn:Hd; [|discriminate].
  rewrite (index_char_digits c _ _ Hc Hd). cbn [index_char].
  rewrite Ascii.eqb_refl. cbn [option_map]. f_equal. lia.
Qed.

Lemma numeral_not_empty (d : string) (n : Z) :
  decimal_value d = Some n -> empty d = false.
Proof. destruct d; [discriminate | reflexivity]. Qed.

Lemma text_after_found (key body rest : string) :
  text_after key body = Some rest ->
  exists i,
    index_str key body = Some i
    /\ drop i body = key ++ rest
    /\ drop (i + String.length key) body = rest
    /\ (i + String.length key + String.length rest = String.length body)%nat.
Proof.
  unfold text_after.
  destruct (index_str key body) as [i|] eqn:Hi; [|discriminate].
  intros [= <-]. exists i.
  destruct (index_str_found _ _ _ Hi) as [Hp Hlen].
  repeat split.
  - rewrite (prefix_split _ _ Hp) at 1. now rewrite drop_drop.
  - rewrite length_drop. lia.
Qed.

Lemma index_char_after_cseq (rest : string) :
  index_char CR ("CSeq: " ++ rest)
  = option_map (fun j => (6 + j)%nat) (index_char CR rest).
Proof. simpl. destruct (index_char CR rest); reflexivity. Qed.

Lemma index_char_append_none (c : ascii) (a b : string) :
  index_char c a = None ->
  index_char c (a ++ b)
  = option_map (fun j => (String.length a + j)%nat) (index_char c b).
Proof.
  induction a as [|x a IH]; intros Ha.
  - simpl. destruct (index_char c b); reflexivity.
  - simpl in *. destruct (Ascii.eqb x c); [discriminate|].
    destruct (index_char c a); [discriminate|].
    rewrite (IH eq_refl). destruct (index_char c b); reflexivity.
Qed.

(** Whatever stands between "CSeq: " and the next CR, if not empty, goes to
    [std::stoi] as it is. *)
Lemma parse_cseq_value (body value post : string) :
  size body < npos ->
  text_after "CSeq: " body = Some (value ++ String CR post) ->
  index_char CR value = None ->
  value <> EmptyString ->
  parse_rtsp_command_sequence body = (cseq <~ stoi value ;; Ret (Some cseq)).
Proof.
  intros Hsz Hafter Hcr Hne.
  destruct (text_after_found _ _ _ Hafter) as (i & Hi & Hdrop & Hrest & Hlen).
  simpl String.length in Hrest, Hlen. rewrite length_append in Hlen.
  simpl String.length in Hlen. unfold size in Hsz.
  unfold parse_rtsp_command_sequence.
  rewrite find_0 by discriminate. rewrite Hi.
  destruct (Z.eqb_spec (Z.of_nat i) npos) as [E|_]; [lia|].
  rewrite find_char_at, Hdrop, index_char_after_cseq.
  rewrite (index_char_append_none CR value _ Hcr).
  cbn [index_char]. rewrite Ascii.eqb_refl. cbn [option_map].
  rewrite Nat.add_0_r.
  destruct (Z.eqb_spec (Z.of_nat i + Z.of_nat (6 + String.length value)) npos)
    as [E|_]; [lia|].
  rewrite add_small by lia.
  rewrite (sub_small (Z.of_nat i + Z.of_nat (6 + String.length value)))
    by lia.
  rewrite sub_small by lia.
  replace (Z.of_nat i + 6) with (Z.of_nat (i + 6)) by lia.
  replace (Z.of_nat i + Z.of_nat (6 + String.length value) - Z.of_nat i - 6)
    with (Z.of_nat (String.length value)) by lia.
  rewrite substr_at by lia.
  rewrite Hrest, take_append. cbn [outcome_bind].
  destruct value; [congruence | reflexivity].
Qed.

Lemma numeral_without (c : ascii) (d : string) (n : Z) :
  (forall a, isdigit a = true -> Ascii.eqb a c = false) ->
  decimal_value d = Some n ->
  index_char c d = None.
Proof.
  intros Hc Hv. unfold decimal_value in Hv.
  destruct d as [|a d]; [discriminate|].
  destruct (all_digits (String a d)) eqn:Hd; [|discriminate]. clear Hv.
  revert Hd. generalize (String a d). clear a d.
  induction s as [|a d IH]; intros Hd; [reflexivity|].
  simpl in Hd. apply andb_prop in Hd. destruct Hd as [Ha Hd].
  simpl. now rewrite (Hc a Ha), (IH Hd).
Qed.

(** The CSeq parser returns the number written between "CSeq: " and the
    next CR. *)
Lemma parse_cseq_numeral (body d post : string) (n : Z) :
  size body < npos ->
  text_after "CSeq: " body = Some (d ++ String CR post) ->
  decimal_value d = Some n ->
  n <= INT_MAX ->
  parse_rtsp_command_sequence body = Ret (Some n).
Proof.
  intros Hsz Hafter Hv Hmax.
  rewrite (parse_cseq_value body d post Hsz Hafter).
  - now rewrite (stoi_numeral d n Hv Hmax).
  - apply (numeral_without CR d n); [|exact Hv].
    intros a Ha. now destruct (isdigit_not_cr_dash_space a Ha).
  - intros ->. discriminate.
Qed.

(** Without a CR after "CSeq: " the parser fails cleanly. *)
Lemma parse_cseq_no_cr (body rest : string) :
  size body < npos ->
  text_after "CSeq: " body = Some rest ->
  index_char CR rest = None ->
  parse_rtsp_command_sequence body = Ret None.
Proof.
  intros Hsz Hafter Hcr.
  destruct (text_after_found _ _ _ Hafter) as (i & Hi & Hdrop & Hrest & Hlen).
  simpl String.length in Hlen. unfold size in Hsz.
  unfold parse_rtsp_command_sequence.
  rewrite find_0 by discriminate. rewrite Hi.
  destruct (Z.eqb_spec (Z.of_nat i) npos) as [E|_]; [lia|].
  rewrite find_char_at, Hdrop, index_char_after_cseq, Hcr. reflexivity.
Qed.

(** With nothing between "CSeq: " and the CR the parser fails cleanly. *)
Lemma parse_cseq_empty_value (body post : string) :
  size body < npos ->
  text_after "CSeq: " body = Some (String CR post) ->
  parse_rtsp_command_sequence body = Ret None.
Proof.
  intros Hsz Hafter.
  destruct (text_after_found _ _ _ Hafter) as (i & Hi & Hdrop & Hrest & Hlen).
  simpl String.length in Hrest, Hlen. unfold size in Hsz.
  unfold parse_rtsp_command_sequence.
  rewrite find_0 by discriminate. rewrite Hi.
  destruct (Z.eqb_spec (Z.of_nat i) npos) as [E|_]; [lia|].
  rewrite find_char_at, Hdrop, index_char_after_cseq.
  cbn [index_char]. rewrite Ascii.eqb_refl. cbn [option_map].
  destruct (Z.eqb_spec (Z.of_nat i + Z.of_nat (6 + 0)) npos) as [E|_]; [lia|].
  rewrite add_small by lia.
  rewrite (sub_small (Z.of_nat i + Z.of_nat (6 + 0))) by lia.
  rewrite sub_small by lia.
  replace (Z.of_nat i + 6) with (Z.of_nat (i + 6)) by lia.
  replace (Z.of_nat i + Z.of_nat (6 + 0) - Z.of_nat i - 6)
    with (Z.of_nat 0) by lia.
  rewrite substr_at by lia. reflexivity.
Qed.

Lemma drop_append_more (a b : string) (k : nat) :
  drop (String.length a + k) (a ++ b) = drop k b.
Proof. induction a as [|x a IH]; simpl; [reflexivity | exact IH]. Qed.

Lemma index_char_after_client_port (c : ascii) (rest : string) :
  c = CR \/ c = DASH ->
  index_char c ("client_port=" ++ rest)
  = option_map (fun j => (12 + j)%nat) (index_char c rest).
Proof.
  intros [->| ->]; simpl; destruct (index_char _ rest); reflexivity.
Qed.

Lemma contains_not_found (s needle : string) :
  needle <> EmptyString -> contains s needle = false -> find s needle 0 = npos.
Proof.
  intros Hn. unfold contains. rewrite find_0 by exact Hn.
  destruct (index_str needle s); [discriminate | reflexivity].
Qed.

(** The SETUP parser returns the two numbers written after the first
    "client_port=" of the body, separated by a dash and ended by CR. *)
Lemma parse_rtsp_setup_request_ports
    (body transport dN dM post : string) (N M : Z) (s : RtspSession) :
  size body < npos ->
  path_field body <> EmptyString ->
  transport_header body = Some transport ->
  transport <> EmptyString ->
  contains transport "RTP/AVP/TCP" = false ->
  text_after "client_port=" body = Some (dN ++ "-" ++ dM ++ String CR post) ->
  decimal_value dN = Some N -> N <= INT_MAX ->
  decimal_value dM = Some M -> M <= INT_MAX ->
  parse_rtsp_setup_request body s = (Ret (Some (path_field body, N, M)), s).
Proof.
  intros Hsz Hpath Hth Hne Htcp Hafter HN HNmax HM HMmax.
  unfold parse_rtsp_setup_request.
  rewrite (bind_lift_ret _ _ _ _ (parse_rtsp_path_field body Hsz)).
  destruct (path_field body) as [|a p] eqn:Hp; [congruence|]. cbn [empty].
  destruct (transport_header_cut body transport Hsz Hth)
    as (i & j & Hfind & Hend & Hlt & Hcut).
  rewrite Hfind. unfold size in Hsz.
  destruct (Z.eqb_spec (Z.of_nat i) npos) as [E|_]; [lia|].
  rewrite Hend.
  destruct (Z.eqb_spec (Z.of_nat (i + 11 + j)) npos) as [E|_]; [lia|].
  rewrite (bind_lift_ret _ _ _ _ Hcut).
  destruct transport as [|t0 t]; [congruence|]. cbn [empty].
  rewrite (contains_not_found (String t0 t) "RTP/AVP/TCP"
             ltac:(discriminate) Htcp).
  rewrite Z.eqb_refl. cbn [negb].
  (* the ports *)
  cbn [append] in Hafter.
  destruct (text_after_found _ _ _ Hafter) as (c & Hc & Hdrop & Hrest & Hlen).
  simpl String.length in Hrest, Hlen. rewrite length_append in Hlen.
  cbn [String.length] in Hlen. rewrite length_append in Hlen.
  cbn [String.length] in Hlen.
  pose proof isdigit_not_cr_dash_space as Hnd.
  rewrite find_0 by discriminate. rewrite Hc.
  assert (Hdash : find_char body DASH (Z.of_nat c)
                  = Z.of_nat (c + 12 + String.length dN)).
  { rewrite find_char_at, Hdrop.
    rewrite index_char_after_client_port by (right; reflexivity).
    rewrite (index_char_numeral_stop DASH dN _ N)
      by (solve [apply Hnd] || exact HN).
    cbn [option_map]. lia. }
  assert (Hcr : find_char body CR (Z.of_nat c)
                = Z.of_nat (c + 12 + String.length dN + 1 + String.length dM)).
  { rewrite find_char_at, Hdrop.
    rewrite index_char_after_client_port by (left; reflexivity).
    unfold decimal_value in HN. destruct dN as [|x dN]; [discriminate|].
    destruct (all_digits (String x dN)) eqn:HdN; [|discriminate].
    rewrite (index_char_digits CR _ _ ltac:(apply Hnd) HdN).
    cbn [index_char]. change (Ascii.eqb "-" CR) with false. cbv iota.
    rewrite (index_char_numeral_stop CR dM post M)
      by (solve [apply Hnd] || exact HM).
    cbn [option_map]. lia. }
  rewrite Hdash, Hcr.
  rewrite add_small by lia.
  rewrite (sub_small (Z.of_nat (c + 12 + String.length dN))) by lia.
  rewrite sub_small by lia.
  replace (Z.of_nat c + 12) with (Z.of_nat (c + 12)) by lia.
  replace (Z.of_nat (c + 12 + String.length dN) - Z.of_nat c - 12)
    with (Z.of_nat (String.length dN)) by lia.
  rewrite substr_at by lia. rewrite Hrest, take_append.
  cbv beta iota delta [bind lift].
  rewrite (numeral_not_empty dN N HN).
  rewrite add_small by lia.
  rewrite (sub_small
             (Z.of_nat (c + 12 + String.length dN + 1 + String.length dM)))
    by lia.
  rewrite sub_small by lia.
  replace (Z.of_nat (c + 12 + String.length dN) + 1)
    with (Z.of_nat (c + 12 + String.length dN + 1)) by lia.
  replace (Z.of_nat (c + 12 + String.length dN + 1 + String.length dM)
           - Z.of_nat (c + 12 + String.length dN) - 1)
    with (Z.of_nat (String.length dM)) by lia.
  rewrite substr_at by lia.
  replace (c + 12 + String.length dN + 1)%nat
    with ((c + 12) + (String.length dN + 1))%nat by lia.
  rewrite <- drop_drop, Hrest, drop_append_more. cbn [drop].
  rewrite take_append.
  rewrite (numeral_not_empty dM M HM).
  rewrite (stoi_numeral dN N HN HNmax), (stoi_numeral dM M HM HMmax).
  reflexivity.
Qed.


Lemma parse_rtsp_setup_request_state body s r :
  fst (parse_rtsp_setup_request body s) = Ret (Some r) ->
  parse_rtsp_setup_request body s = (Ret (Some r), s).
Proof.
  intros H. destruct (parse_rtsp_setup_request body s) as [o s'] eqn:E.
  simpl in H. subst o. f_equal.
  revert E. unfold parse_rtsp_setup_request.
  cbv beta iota delta [bind lift ret].
  repeat break_match; intros E; inversion E; reflexivity.
Qed.

(** ** Handlers *)

Lemma handle_rtsp_play_run body n s sock :
  control_socket_ s = Some sock ->
  parse_rtsp_command_sequence body = Ret (Some n) ->
  handle_rtsp_play body s =
    (Ret (tcp_transmit_ok sock),
     after_response
       (response_text 200 "OK" (supplied_cseq n)
          ("Session: " ++ to_string (session_id_ s) ++ CRLF ++
           "Range: npt=0.000-" ++ CRLF) None)
       sock (set_session_active true s)).
Proof.
  intros Hsock Hcseq. unfold handle_rtsp_play.
  rewrite (bind_lift_ret _ _ _ _ Hcseq). run_members.
  now rewrite (send_response_run _ _ _ _ _ _ sock) by exact Hsock.
Qed.

Lemma handle_rtsp_pause_run body n s sock :
  control_socket_ s = Some sock ->
  parse_rtsp_command_sequence body = Ret (Some n) ->
  handle_rtsp_pause body s =
    (Ret (tcp_transmit_ok sock),
     after_response
       (response_text 200 "OK" (supplied_cseq n)
          ("Session: " ++ to_string (session_id_ s) ++ CRLF) None)
       sock (set_session_active false s)).
Proof.
  intros Hsock Hcseq. unfold handle_rtsp_pause.
  rewrite (bind_lift_ret _ _ _ _ Hcseq). run_members.
  now rewrite (send_response_run _ _ _ _ _ _ sock) by exact Hsock.
Qed.

Lemma handle_rtsp_teardown_run body n s sock :
  control_socket_ s = Some sock ->
  parse_rtsp_command_sequence body = Ret (Some n) ->
  handle_rtsp_teardown body s =
    (Ret (tcp_transmit_ok sock),
     after_response
       (response_text 200 "OK" (supplied_cseq n)
          ("Session: " ++ to_string (session_id_ s) ++ CRLF) None)
       sock (torn_down s)).
Proof.
  intros Hsock Hcseq. unfold handle_rtsp_teardown.
  rewrite (bind_lift_ret _ _ _ _ Hcseq). run_members.
  now rewrite (send_response_run _ _ _ _ _ _ sock) by exact Hsock.
Qed.

Lemma handle_rtsp_options_run body n s sock :
  control_socket_ s = Some sock ->
  parse_rtsp_command_sequence body = Ret (Some n) ->
  handle_rtsp_options body s =
    (Ret (tcp_transmit_ok sock),
     after_response
       (response_text 200 "OK" (supplied_cseq n)
          ("Public: DESCRIBE, SETUP, TEARDOWN, PLAY, PAUSE" ++ CRLF) None)
       sock s).
Proof.
  intros Hsock Hcseq. unfold handle_rtsp_options.
  rewrite (bind_lift_ret _ _ _ _ Hcseq).
  now rewrite (send_response_run _ _ _ _ _ _ _ Hsock).
Qed.

Lemma options_request_dispatch :
  handle_rtsp_request options_request
  = handle_rtsp_options ("CSeq: 1" ++ CRLF ++ CRLF).
Proof. vm_compute. reflexivity. Qed.

Lemma handle_rtsp_invalid_request_run request cseq s sock :
  control_socket_ s = Some sock ->
  parse_rtsp_command_sequence request = Ret cseq ->
  handle_rtsp_invalid_request request s =
    (Ret (tcp_transmit_ok sock),
     after_response
       (response_text 400 "Bad Request" (echoed_cseq cseq) EmptyString None)
       sock s).
Proof.
  intros Hsock Hcseq. unfold handle_rtsp_invalid_request.
  rewrite (bind_lift_ret _ _ _ _ Hcseq).
  destruct cseq as [n|];
    now rewrite (send_response_run _ _ _ _ _ _ sock) by exact Hsock.
Qed.

Lemma handle_rtsp_setup_run body path N M n s sock :
  control_socket_ s = Some sock ->
  fst (parse_rtsp_setup_request body s) = Ret (Some (path, N, M)) ->
  parse_rtsp_command_sequence body = Ret (Some n) ->
  handle_rtsp_setup body s =
    (Ret (tcp_transmit_ok sock),
     after_response
       (response_text 200 "OK" (supplied_cseq n)
          ("Session: " ++ to_string (session_id_ s) ++ CRLF ++
           "Transport: RTP/AVP;unicast;client_port=" ++ to_string N ++ "-"
             ++ to_string M ++ CRLF) None)
       sock (set_client_rtcp_port M (set_client_rtp_port N s))).
Proof.
  intros Hsock Hparse Hcseq. unfold handle_rtsp_setup.
  rewrite (bind_ret_run _ _ _ _ _
             (parse_rtsp_setup_request_state _ _ _ Hparse)).
  rewrite (bind_lift_ret _ _ _ _ Hcseq). run_members.
  now rewrite (send_response_run _ _ _ _ _ _ sock) by exact Hsock.
Qed.

Lemma handle_rtsp_describe_run body n s sock :
  control_socket_ s = Some sock ->
  parse_rtsp_command_sequence body = Ret (Some n) ->
  handle_rtsp_describe body s =
    (Ret (tcp_transmit_ok sock),
     after_response (describe_response s n (sdp_lines s)) sock s).
Proof.
  intros Hsock Hcseq. unfold handle_rtsp_describe.
  rewrite (bind_lift_ret _ _ _ _ Hcseq). run_members.
  rewrite (send_response_run _ _ _ _ _ _ sock) by exact Hsock.
  unfold describe_response. do 3 f_equal.
  cbn [crlf_terminated sdp_lines]. unfold rtsp_url.
  repeat rewrite append_assoc. reflexivity.
Qed.

(** ** Dispatch *)

Lemma bind_lift_ret_fun {A B} (a : A) (k : A -> M B) :
  bind (lift (Ret a)) k = k a.
Proof. reflexivity. Qed.

Lemma substr_ret (s : string) (pos count : Z) :
  pos <= size s -> exists r, substr s pos count = Ret r.
Proof.
  intros H. unfold substr.
  destruct (Z.ltb_spec (size s) pos); [lia|]. eexists. reflexivity.
Qed.

(** A request with its two spaces and a CR that is not its last character
    is handed, from the character after the LF, to the handler of its
    method. *)
Lemma handle_rtsp_request_dispatch (request method body : string) (j : nat) :
  size request < npos ->
  request_method request = Some method ->
  second_space request = Some j ->
  request_body request = Some body ->
  handle_rtsp_request request = handler_of method body.
Proof.
  intros Hsz Hm Hj Hb. unfold request_method, second_space, request_body in *.
  destruct (index_char SP request) as [i|] eqn:Hi; [|discriminate].
  destruct (index_char SP (drop (i + 1) request)) as [j'|] eqn:Hj';
    [|discriminate].
  destruct (index_char CR request) as [e|] eqn:He; [|discriminate].
  destruct (Nat.leb_spec (e + 2) (String.length request)) as [Hle|];
    [|discriminate].
  injection Hm as <-. injection Hj as <-. injection Hb as <-.
  pose proof (index_char_bound _ _ _ Hi) as Hbi.
  pose proof (index_char_bound _ _ _ Hj') as Hbj. rewrite length_drop in Hbj.
  unfold size in Hsz.
  unfold handle_rtsp_request.
  rewrite (find_char_0 request SP), Hi, (find_char_0 request CR), He.
  rewrite add_small by lia.
  replace (Z.of_nat i + 1) with (Z.of_nat (i + 1)) by lia.
  rewrite find_char_at, Hj'.
  destruct (Z.eqb_spec (Z.of_nat i) npos) as [E|_]; [lia|].
  destruct (Z.eqb_spec (Z.of_nat (i + 1) + Z.of_nat j') npos) as [E|_]; [lia|].
  destruct (Z.eqb_spec (Z.of_nat e) npos) as [E|_]; [lia|].
  cbn [orb].
  change 0 with (Z.of_nat 0).
  rewrite (substr_at request 0 i) by lia. cbn [drop].
  rewrite bind_lift_ret_fun.
  destruct (substr_ret request (Z.of_nat (i + 1))
              (size_t.sub
                 (size_t.sub (Z.of_nat (i + 1) + Z.of_nat j') (Z.of_nat i)) 1)
              ltac:(unfold size; lia)) as [r1 ->].
  rewrite bind_lift_ret_fun.
  rewrite add_small by lia.
  destruct (substr_ret request (Z.of_nat (i + 1) + Z.of_nat j' + 1)
              (size_t.sub
                 (size_t.sub (Z.of_nat e) (Z.of_nat (i + 1) + Z.of_nat j')) 1)
              ltac:(unfold size; lia)) as [r2 ->].
  rewrite bind_lift_ret_fun.
  rewrite add_small by lia.
  replace (Z.of_nat e + 2) with (Z.of_nat (e + 2)) by lia.
  rewrite substr_to_end by (unfold size; lia).
  rewrite bind_lift_ret_fun.
  unfold handler_of.
  repeat match goal with
         | |- context [String.eqb ?a ?b] => destruct (String.eqb a b)
         end; reflexivity.
Qed.

(** ** Response writer *)

(** C3: [send_response] writes the status line "RTSP/1.0 <code> <phrase>",
    then "CSeq: <n>" when a sequence number is supplied, then the caller's
    header block, then either "Content-Length: <bytes>", a blank line and
    the body when the body is not empty, or a lone blank line; and an
    OPTIONS request with CSeq 1 -- the request of the first end-to-end
    scenario, and any OPTIONS body in which the CSeq parser reads 1 -- is
    answered with exactly "RTSP/1.0 200 OK", "CSeq: 1", "Public: DESCRIBE,
    SETUP, TEARDOWN, PLAY, PAUSE" and a blank line. *)
Theorem send_response_format :
  forall code message sequence_number headers body s sock,
    control_socket_ s = Some sock ->
    send_response code message sequence_number headers body s =
      (Ret (tcp_transmit_ok sock),
       after_response
         (response_text code message (supplied_cseq sequence_number) headers
            (supplied_body body))
         sock s)
    /\ handle_rtsp_request options_request s =
      (Ret (tcp_transmit_ok sock),
       after_response
         ("RTSP/1.0 200 OK" ++ CRLF ++ "CSeq: 1" ++ CRLF ++
          "Public: DESCRIBE, SETUP, TEARDOWN, PLAY, PAUSE" ++ CRLF ++ CRLF)
         sock s)
    /\ (forall options_body,
          parse_rtsp_command_sequence options_body = Ret (Some 1) ->
          handle_rtsp_options options_body s =
            (Ret (tcp_transmit_ok sock),
             after_response
               ("RTSP/1.0 200 OK" ++ CRLF ++ "CSeq: 1" ++ CRLF ++
                "Public: DESCRIBE, SETUP, TEARDOWN, PLAY, PAUSE" ++ CRLF
                ++ CRLF)
               sock s)).
Proof.
  intros code message sequence_number headers body s sock Hsock.
  split; [|split].
  - now apply send_response_run.
  - rewrite options_request_dispatch.
    rewrite (handle_rtsp_options_run _ 1 _ _ Hsock)
      by (vm_compute; reflexivity).
    reflexivity.
  - intros options_body Hcseq.
    now rewrite (handle_rtsp_options_run _ 1 _ _ Hsock Hcseq).
Qed.

Lemma send_response_format_witness :
  send_response 200 "OK" 7 ("Session: 305419896" ++ CRLF) EmptyString
    example_session =
    (Ret true,
     after_response
       ("RTSP/1.0 200 OK" ++ CRLF ++ "CSeq: 7" ++ CRLF ++
        "Session: 305419896" ++ CRLF ++ CRLF)
       example_socket example_session)
  /\ handle_rtsp_request options_request example_session =
    (Ret true,
     after_response
       ("RTSP/1.0 200 OK" ++ CRLF ++ "CSeq: 1" ++ CRLF ++
        "Public: DESCRIBE, SETUP, TEARDOWN, PLAY, PAUSE" ++ CRLF ++ CRLF)
       example_socket example_session)
  /\ handle_rtsp_options ("CSeq: 1" ++ CRLF ++ CRLF) example_session =
    (Ret true,
     after_response
       ("RTSP/1.0 200 OK" ++ CRLF ++ "CSeq: 1" ++ CRLF ++
        "Public: DESCRIBE, SETUP, TEARDOWN, PLAY, PAUSE" ++ CRLF ++ CRLF)
       example_socket example_session).
Proof.
  destruct (send_response_format 200 "OK" 7 ("Session: 305419896" ++ CRLF)
              EmptyString example_session example_socket eq_refl)
    as (Hformat & Hoptions & Hany).
  split; [exact Hformat|]. split; [exact Hoptions|].
  apply Hany. vm_compute. reflexivity.
Defined.

(** ** Request parsers at inputs they do not survive *)

(** C8: [parse_rtsp_command_sequence] hands every non-empty value found
    between "CSeq: " and the next CR to [std::stoi] unchecked, so on such a
    request it never returns [false]: it returns the number that
    [std::stoi] reads at the start of the value, and throws whenever
    [std::stoi] throws -- [std::invalid_argument] when the value does not
    start with a number. *)
Theorem parse_cseq_never_rejects_a_value :
  forall body value post,
    size body <= max_request_size ->
    text_after "CSeq: " body = Some (value ++ String CR post) ->
    index_char CR value = None ->
    value <> EmptyString ->
    parse_rtsp_command_sequence body = (cseq <~ stoi value ;; Ret (Some cseq))
    /\ parse_rtsp_command_sequence body <> Ret None
    /\ (forall e, stoi value = Throw e ->
                  parse_rtsp_command_sequence body = Throw e).
Proof.
  intros body value post Hsz Hafter Hcr Hne.
  rewrite (parse_cseq_value body value post (size_below_npos _ Hsz)
             Hafter Hcr Hne).
  split; [reflexivity|]. split.
  - destruct (stoi value); discriminate.
  - intros e ->. reflexivity.
Qed.

Lemma parse_cseq_never_rejects_a_value_witness :
  parse_rtsp_command_sequence cseq_not_a_number = Throw invalid_argument.
Proof.
  apply (proj2 (proj2 (parse_cseq_never_rejects_a_value cseq_not_a_number
                         "abc" (String LF CRLF)
                         ltac:(vm_compute; discriminate) eq_refl eq_refl
                         ltac:(discriminate)))).
  reflexivity.
Defined.

(** The exception leaves the request handler: nothing is written. *)
Example cseq_not_a_number_unanswered :
  handle_rtsp_request
    ("OPTIONS rtsp://host/stream RTSP/1.0" ++ CRLF ++ cseq_not_a_number)
    example_session
  = (Throw invalid_argument, example_session)
  /\ parse_rtsp_command_sequence ("CSeq: 12abc" ++ CRLF) = Ret (Some 12).
Proof. split; vm_compute; reflexivity. Qed.

Lemma find_char_npos (s : string) (c : ascii) :
  size s <= npos -> find_char s c npos = npos.
Proof.
  intros H. unfold find_char.
  destruct (Z.leb_spec (size s) npos); [reflexivity | lia].
Qed.

Lemma drop_not_empty (n : nat) (s : string) :
  (n < String.length s)%nat -> empty (drop n s) = false.
Proof.
  intros H. destruct (drop n s) eqn:E; [|reflexivity].
  pose proof (length_drop n s) as Hl. rewrite E in Hl. simpl in Hl. lia.
Qed.

(** C9: on a SETUP body (within the 1024-byte receive bound, past the
    empty-path guard) that has a Transport header not naming TCP and no
    "client_port=" anywhere, [parse_rtsp_setup_request] never returns
    [false]: the positions of "client_port=" and of the dash are used
    unchecked, the port texts are the body from offset 11 and the whole
    body, and the result is what [std::stoi] makes of them -- an exception,
    or two numbers returned as client ports. *)
Theorem setup_without_client_port_is_not_rejected :
  forall body transport s,
    size body <= max_request_size ->
    path_field body <> EmptyString ->
    transport_header body = Some transport ->
    transport <> EmptyString ->
    contains transport "RTP/AVP/TCP" = false ->
    contains body "client_port=" = false ->
    parse_rtsp_setup_request body s =
      (client_rtp_port <~ stoi (drop 11 body) ;;
       client_rtcp_port <~ stoi body ;;
       Ret (Some (path_field body, client_rtp_port, client_rtcp_port)),
       s)
    /\ fst (parse_rtsp_setup_request body s) <> Ret None.
Proof.
  intros body transport s Hsz Hpath Hth Hne Htcp Hnone.
  apply size_below_npos in Hsz.
  assert (Hrun : parse_rtsp_setup_request body s =
    (client_rtp_port <~ stoi (drop 11 body) ;;
     client_rtcp_port <~ stoi body ;;
     Ret (Some (path_field body, client_rtp_port, client_rtcp_port)), s)).
  { unfold parse_rtsp_setup_request.
    rewrite (bind_lift_ret _ _ _ _ (parse_rtsp_path_field body Hsz)).
    destruct (path_field body) as [|a p] eqn:Hp; [congruence|]. cbn [empty].
    destruct (transport_header_cut body transport Hsz Hth)
      as (i & j & Hfind & Hend & Hlt & Hcut).
    rewrite Hfind. unfold size in Hsz.
    destruct (Z.eqb_spec (Z.of_nat i) npos) as [E|_]; [lia|].
    rewrite Hend.
    destruct (Z.eqb_spec (Z.of_nat (i + 11 + j)) npos) as [E|_]; [lia|].
    rewrite (bind_lift_ret _ _ _ _ Hcut).
    destruct transport as [|t0 t]; [congruence|]. cbn [empty].
    rewrite (contains_not_found (String t0 t) "RTP/AVP/TCP"
               ltac:(discriminate) Htcp).
    rewrite Z.eqb_refl. cbn [negb].
    rewrite (contains_not_found body "client_port=" ltac:(discriminate) Hnone).
    rewrite !find_char_npos by (unfold size; lia).
    change (size_t.add npos 12) with (Z.of_nat 11).
    change (size_t.sub (size_t.sub npos npos) 12) with 4294967284.
    change (size_t.add npos 1) with (Z.of_nat 0).
    change (size_t.sub (size_t.sub npos npos) 1) with npos.
    pose proof Hsz as Hsz'. rewrite npos_value in Hsz'.
    rewrite (substr_to_end body 11) by (try unfold size; lia).
    rewrite (substr_to_end body 0) by (try unfold size; lia).
    change (drop 0 body) with body.
    cbv beta iota delta [bind lift ret].
    rewrite (drop_not_empty 11 body) by lia.
    assert (Hb : empty body = false).
    { destruct body; [simpl in Hlt; lia | reflexivity]. }
    rewrite Hb.
    destruct (stoi (drop 11 body)); [|reflexivity].
    destruct (stoi body); reflexivity. }
  rewrite Hrun. split; [reflexivity|]. cbn [fst].
  destruct (stoi (drop 11 body)); [|discriminate].
  destruct (stoi body); discriminate.
Qed.

Lemma setup_without_client_port_is_not_rejected_witness :
  parse_rtsp_setup_request setup_body_stray_numbers example_session
    = (Ret (Some ("CSeq:", 7, 1)), example_session)
  /\ parse_rtsp_setup_request setup_body_without_client_port example_session
    = (Throw invalid_argument, example_session).
Proof.
  split.
  - apply (proj1 (setup_without_client_port_is_not_rejected
                    setup_body_stray_numbers "RTP/AVP" example_session
                    ltac:(vm_compute; discriminate)
                    ltac:(vm_compute; discriminate)
                    eq_refl ltac:(discriminate) eq_refl eq_refl)).
  - apply (proj1 (setup_without_client_port_is_not_rejected
                    setup_body_without_client_port "RTP/AVP;unicast"
                    example_session
                    ltac:(vm_compute; discriminate)
                    ltac:(vm_compute; discriminate)
                    eq_refl ltac:(discriminate) eq_refl eq_refl)).
Defined.

(** The numbers that happen to stand at offsets 11 and 0 are recorded as
    client ports and echoed with 200 OK. *)
Example setup_stray_numbers_recorded :
  handle_rtsp_setup setup_body_stray_numbers example_session
  = (Ret true,
     after_response (setup_response example_session 3 7 1) example_socket
       (set_client_rtcp_port 1 (set_client_rtp_port 7 example_session))).
Proof. vm_compute. reflexivity. Qed.

(** ** DESCRIBE *)

(** C2, as stated, fails on the number of lines: the session description
    written for DESCRIBE has twelve lines, not thirteen. *)
Lemma describe_body_has_not_thirteen_lines :
  ~ describe_body_line_count 13 example_session describe_body.
Proof.
  intros H.
  destruct (H example_socket 2 eq_refl) as [response [Hrun Hlen]].
  { vm_compute. reflexivity. }
  rewrite (handle_rtsp_describe_run describe_body 2 example_session
             example_socket eq_refl) in Hrun by (vm_compute; reflexivity).
  assert (Hresp : response
                  = describe_response example_session 2
                      (sdp_lines example_session)).
  { unfold after_response, wrote, tcp_transmit, example_socket in Hrun.
    simpl in Hrun. inversion Hrun. reflexivity. }
  subst response. vm_compute in Hlen. discriminate Hlen.
Qed.

(** C2, amended: for every DESCRIBE request whose CSeq parses, the response
    is 200 OK with the headers "Content-Type: application/sdp",
    "Content-Base: rtsp://<server_address>/<rtsp_path>" and Content-Length
    equal to the byte length of the body, and the body is exactly the
    twelve CRLF-terminated lines of the session description (v=0; o=- <sid>
    1 IN IP4 <addr>; s=MJPEG Stream; i=MJPEG Stream; t=0 0;
    a=control:<path>; a=mimetype:string;"video/x-motion-jpeg"; m=video 0
    RTP/AVP 26; c=IN IP4 0.0.0.0; b=AS:256; a=control:<path>; a=udp-only),
    with <sid> the session id and <path> the rtsp:// URL. *)
Theorem describe_writes_session_description :
  forall s body sock n,
    control_socket_ s = Some sock ->
    parse_rtsp_command_sequence body = Ret (Some n) ->
    handle_rtsp_describe body s =
      (Ret (tcp_transmit_ok sock),
       after_response
         ("RTSP/1.0 200 OK" ++ CRLF ++
          match supplied_cseq n with
          | Some k => "CSeq: " ++ to_string k ++ CRLF
          | None => EmptyString
          end ++
          "Content-Type: application/sdp" ++ CRLF ++
          "Content-Base: " ++ rtsp_url s ++ CRLF ++
          "Content-Length: "
            ++ to_string (size (crlf_terminated (sdp_lines s))) ++ CRLF ++
          CRLF ++
          crlf_terminated (sdp_lines s))
         sock s)
    /\ List.length (sdp_lines s) = 12%nat
    /\ sdp_lines s =
       [ "v=0";
         "o=- " ++ to_string (get_session_id s) ++ " 1 IN IP4 "
           ++ server_address_ s;
         "s=MJPEG Stream";
         "i=MJPEG Stream";
         "t=0 0";
         "a=control:" ++ rtsp_url s;
         "a=mimetype:string;" ++ String DQUOTE "video/x-motion-jpeg"
           ++ String DQUOTE EmptyString;
         "m=video 0 RTP/AVP 26";
         "c=IN IP4 0.0.0.0";
         "b=AS:256";
         "a=control:" ++ rtsp_url s;
         "a=udp-only" ].
Proof.
  intros s body sock n Hsock Hcseq.
  rewrite (handle_rtsp_describe_run _ _ _ _ Hsock Hcseq).
  repeat split. do 2 f_equal.
  unfold describe_response, response_text.
  destruct (supplied_cseq n); repeat rewrite append_assoc; reflexivity.
Qed.

Lemma describe_writes_session_description_witness :
  handle_rtsp_describe describe_body example_session =
    (Ret true,
     after_response
       ("RTSP/1.0 200 OK" ++ CRLF ++ "CSeq: 2" ++ CRLF ++
        "Content-Type: application/sdp" ++ CRLF ++
        "Content-Base: rtsp://host/stream" ++ CRLF ++
        "Content-Length: 236" ++ CRLF ++ CRLF ++
        "v=0" ++ CRLF ++
        "o=- 305419896 1 IN IP4 host" ++ CRLF ++
        "s=MJPEG Stream" ++ CRLF ++
        "i=MJPEG Stream" ++ CRLF ++
        "t=0 0" ++ CRLF ++
        "a=control:rtsp://host/stream" ++ CRLF ++
        "a=mimetype:string;" ++ String DQUOTE "video/x-motion-jpeg"
          ++ String DQUOTE CRLF ++
        "m=video 0 RTP/AVP 26" ++ CRLF ++
        "c=IN IP4 0.0.0.0" ++ CRLF ++
        "b=AS:256" ++ CRLF ++
        "a=control:rtsp://host/stream" ++ CRLF ++
        "a=udp-only" ++ CRLF)
       example_socket example_session).
Proof.
  apply (describe_writes_session_description example_session describe_body
           example_socket 2).
  - reflexivity.
  - vm_compute. reflexivity.
Defined.

(** ** SETUP *)

(** An accepted SETUP whose sequence number parses to [-1] has its ports
    recorded, but the response carries no CSeq header: [-1] is the value
    by which [send_response] tells that no sequence number was given. *)
Lemma setup_cseq_minus_one_not_echoed :
  ~ setup_echoes_every_cseq example_session setup_body_cseq_minus_one.
Proof.
  intros H.
  specialize (H example_socket ("-1" ++ CRLF ++ "Transport:") 5000 5001 (-1)
                eq_refl).
  assert (Hsetup :
    fst (parse_rtsp_setup_request setup_body_cseq_minus_one example_session)
    = Ret (Some ("-1" ++ CRLF ++ "Transport:", 5000, 5001))).
  { vm_compute. reflexivity. }
  assert (Hc : parse_rtsp_command_sequence setup_body_cseq_minus_one
               = Ret (Some (-1))) by (vm_compute; reflexivity).
  specialize (H Hsetup Hc).
  vm_compute in H. discriminate H.
Qed.

(** What [handle_rtsp_setup] does with a body that its parser accepts with
    ports N and M and whose sequence number n is not [-1]: it records N and
    M and writes 200 OK with "CSeq: n", the session id and
    "RTP/AVP;unicast;client_port=N-M".  The parser accepts in particular a
    body (within the 1024-byte receive bound, with a non-empty text between
    its first two spaces and a Transport header that does not name TCP)
    whose first "client_port=" is followed by the numeral of N, a dash, the
    numeral of M and a CR. *)
Theorem setup_records_and_echoes_ports :
  forall s sock,
    control_socket_ s = Some sock ->
    (forall body path N M n,
        fst (parse_rtsp_setup_request body s) = Ret (Some (path, N, M)) ->
        parse_rtsp_command_sequence body = Ret (Some n) ->
        n <> -1 ->
        handle_rtsp_setup body s =
          (Ret (tcp_transmit_ok sock),
           after_response (setup_response s n N M) sock
             (set_client_rtcp_port M (set_client_rtp_port N s)))
        /\ client_rtp_port_ (snd (handle_rtsp_setup body s)) = N
        /\ client_rtcp_port_ (snd (handle_rtsp_setup body s)) = M)
    /\ (forall body transport dN dM post dn post' N M n,
        size body <= max_request_size ->
        path_field body <> EmptyString ->
        transport_header body = Some transport ->
        transport <> EmptyString ->
        contains transport "RTP/AVP/TCP" = false ->
        text_after "client_port=" body
          = Some (dN ++ "-" ++ dM ++ String CR post) ->
        decimal_value dN = Some N -> N <= INT_MAX ->
        decimal_value dM = Some M -> M <= INT_MAX ->
        text_after "CSeq: " body = Some (dn ++ String CR post') ->
        decimal_value dn = Some n -> n <= INT_MAX ->
        handle_rtsp_setup body s =
          (Ret (tcp_transmit_ok sock),
           after_response (setup_response s n N M) sock
             (set_client_rtcp_port M (set_client_rtp_port N s)))).
Proof.
  intros s sock Hsock.
  assert (Hgeneral : forall body path N M n,
    fst (parse_rtsp_setup_request body s) = Ret (Some (path, N, M)) ->
    parse_rtsp_command_sequence body = Ret (Some n) ->
    n <> -1 ->
    handle_rtsp_setup body s =
      (Ret (tcp_transmit_ok sock),
       after_response (setup_response s n N M) sock
         (set_client_rtcp_port M (set_client_rtp_port N s)))).
  { intros body path N M n Hparse Hcseq Hn.
    rewrite (handle_rtsp_setup_run _ _ _ _ _ _ _ Hsock Hparse Hcseq).
    do 2 f_equal.
    unfold response_text, supplied_cseq, setup_response, get_session_id.
    destruct (Z.eqb_spec n (-1)) as [E|_]; [contradiction|].
    repeat rewrite append_assoc. reflexivity. }
  split.
  - intros body path N M n Hparse Hcseq Hn.
    rewrite (Hgeneral body path N M n Hparse Hcseq Hn). repeat split.
  - intros body transport dN dM post dn post' N M n
           Hsz Hpath Hth Hne Htcp Hports HN HNmax HM HMmax Hseq Hn Hnmax.
    pose proof (size_below_npos _ Hsz) as Hsz'.
    apply (Hgeneral body (path_field body) N M n).
    + now rewrite (parse_rtsp_setup_request_ports body transport dN dM post
                     N M s Hsz' Hpath Hth Hne Htcp Hports HN HNmax HM HMmax).
    + exact (parse_cseq_numeral body dn post' n Hsz' Hseq Hn Hnmax).
    + pose proof (decimal_value_nonneg dn n Hn). lia.
Qed.

Lemma setup_records_and_echoes_ports_witness :
  (handle_rtsp_setup setup_body example_session =
     (Ret true,
      after_response
        ("RTSP/1.0 200 OK" ++ CRLF ++ "CSeq: 3" ++ CRLF ++
         "Session: 305419896" ++ CRLF ++
         "Transport: RTP/AVP;unicast;client_port=5000-5001" ++ CRLF ++ CRLF)
        example_socket
        (set_client_rtcp_port 5001 (set_client_rtp_port 5000 example_session)))
   /\ client_rtp_port_ (snd (handle_rtsp_setup setup_body example_session))
      = 5000
   /\ client_rtcp_port_ (snd (handle_rtsp_setup setup_body example_session))
      = 5001)
  /\ handle_rtsp_setup
       ("CSeq: 12" ++ CRLF ++
        "Transport: RTP/AVP;unicast;client_port=49170-49171" ++ CRLF ++ CRLF)
       example_session =
     (Ret true,
      after_response (setup_response example_session 12 49170 49171)
        example_socket
        (set_client_rtcp_port 49171
           (set_client_rtp_port 49170 example_session))).
Proof.
  split.
  - apply (proj1 (setup_records_and_echoes_ports example_session
                    example_socket eq_refl)
             setup_body ("3" ++ CRLF ++ "Transport:") 5000 5001 3).
    + vm_compute. reflexivity.
    + vm_compute. reflexivity.
    + lia.
  - apply (proj2 (setup_records_and_echoes_ports example_session
                    example_socket eq_refl)
             _ "RTP/AVP;unicast;client_port=49170-49171"
             "49170" "49171" (String LF CRLF) "12"
             (String LF ("Transport: RTP/AVP;unicast;client_port=49170-49171"
                         ++ CRLF ++ CRLF))
             49170 49171 12).
    + vm_compute. discriminate.
    + vm_compute. discriminate.
    + vm_compute. reflexivity.
    + discriminate.
    + vm_compute. reflexivity.
    + vm_compute. reflexivity.
    + vm_compute. reflexivity.
    + vm_compute. discriminate.
    + vm_compute. reflexivity.
    + vm_compute. discriminate.
    + vm_compute. reflexivity.
    + vm_compute. reflexivity.
    + vm_compute. discriminate.
Defined.

(** C1: a SETUP whose Transport header gives the client ports 5000-5001
    and whose CSeq parses is not always recorded and answered with its
    ports and its sequence number.  With two spaces after "CSeq:" the
    empty-path guard, applied to the headers, drops the request: nothing is
    written and no port is recorded.  With "client_port=" in a header
    before Transport the ports 1 and 2 of that header are recorded and
    echoed, because the search runs over the whole body.  With the
    sequence number -1 the response carries no CSeq header. *)
Theorem setup_with_ports_dropped_or_misanswered :
  (transport_client_ports setup_body_two_spaces = Some (5000, 5001)
   /\ parse_rtsp_command_sequence setup_body_two_spaces = Ret (Some 3)
   /\ handle_rtsp_setup setup_body_two_spaces example_session
      = (Ret false, example_session))
  /\ (transport_client_ports setup_body_earlier_client_port
      = Some (5000, 5001)
      /\ parse_rtsp_command_sequence setup_body_earlier_client_port
         = Ret (Some 3)
      /\ handle_rtsp_setup setup_body_earlier_client_port example_session
         = (Ret true,
            after_response (setup_response example_session 3 1 2)
              example_socket
              (set_client_rtcp_port 2
                 (set_client_rtp_port 1 example_session))))
  /\ (transport_client_ports setup_body_cseq_minus_one = Some (5000, 5001)
      /\ parse_rtsp_command_sequence setup_body_cseq_minus_one
         = Ret (Some (-1))
      /\ handle_rtsp_setup setup_body_cseq_minus_one example_session
         = (Ret true,
            after_response
              ("RTSP/1.0 200 OK" ++ CRLF ++
               "Session: 305419896" ++ CRLF ++
               "Transport: RTP/AVP;unicast;client_port=5000-5001" ++ CRLF
               ++ CRLF)
              example_socket
              (set_client_rtcp_port 5001
                 (set_client_rtp_port 5000 example_session)))).
Proof. repeat split; vm_compute; reflexivity. Qed.

(** ** SETUP over TCP *)

Lemma parse_rtsp_setup_request_tcp body transport s sock :
  control_socket_ s = Some sock ->
  size body < npos ->
  path_field body <> EmptyString ->
  transport_header body = Some transport ->
  contains transport "RTP/AVP/TCP" = true ->
  parse_rtsp_setup_request body s =
    (Ret None,
     after_response ("RTSP/1.0 461 Unsupported Transport" ++ CRLF ++ CRLF)
       sock s).
Proof.
  intros Hsock Hsz Hpath Hth Htcp. unfold parse_rtsp_setup_request.
  rewrite (bind_lift_ret _ _ _ _ (parse_rtsp_path_field body Hsz)).
  destruct (path_field body) as [|a p] eqn:Hp; [congruence|]. cbn [empty].
  destruct (transport_header_cut body transport Hsz Hth)
    as (i & j & Hfind & Hend & Hlt & Hcut).
  rewrite Hfind. unfold size in Hsz.
  destruct (Z.eqb_spec (Z.of_nat i) npos) as [E|_]; [lia|].
  rewrite Hend.
  destruct (Z.eqb_spec (Z.of_nat (i + 11 + j)) npos) as [E|_]; [lia|].
  rewrite (bind_lift_ret _ _ _ _ Hcut).
  assert (Hts : size transport < npos).
  { pose proof (substr_size _ _ _ _ Hcut). unfold size in *. lia. }
  destruct (contains_find transport "RTP/AVP/TCP" ltac:(discriminate) Hts Htcp)
    as [Hf He].
  rewrite He, Hf. cbn [negb].
  rewrite (bind_ret_run _ _ _ _ _ (send_response_run _ _ _ _ _ _ _ Hsock)).
  reflexivity.
Qed.

(** Not every SETUP whose Transport header names TCP is answered 461: when
    two spaces follow each other at the first space of the body, the
    request is dropped without any response. *)
Lemma setup_tcp_without_path_field_unanswered :
  ~ tcp_transport_always_461 example_session setup_tcp_body_two_spaces.
Proof.
  intros H.
  specialize (H example_socket "RTP/AVP/TCP;unicast;interleaved=0-1"%string
                eq_refl).
  assert (Hth : transport_header setup_tcp_body_two_spaces
                = Some "RTP/AVP/TCP;unicast;interleaved=0-1"%string)
    by (vm_compute; reflexivity).
  specialize (H Hth eq_refl). vm_compute in H. discriminate H.
Qed.

(** Past the empty-path guard, a SETUP whose Transport header value
    contains "RTP/AVP/TCP" is answered 461 Unsupported Transport without a
    CSeq header; no client port is recorded and the flags are as they
    were. *)
Theorem setup_tcp_transport_answered_461 :
  forall body transport s sock,
    control_socket_ s = Some sock ->
    size body <= max_request_size ->
    path_field body <> EmptyString ->
    transport_header body = Some transport ->
    contains transport "RTP/AVP/TCP" = true ->
    handle_rtsp_setup body s =
      (Ret false,
       after_response ("RTSP/1.0 461 Unsupported Transport" ++ CRLF ++ CRLF)
         sock s)
    /\ client_rtp_port_ (snd (handle_rtsp_setup body s)) = client_rtp_port_ s
    /\ client_rtcp_port_ (snd (handle_rtsp_setup body s)) = client_rtcp_port_ s
    /\ is_closed (snd (handle_rtsp_setup body s)) = is_closed s
    /\ is_active (snd (handle_rtsp_setup body s)) = is_active s.
Proof.
  intros body transport s sock Hsock Hsz Hpath Hth Htcp.
  unfold handle_rtsp_setup.
  rewrite (bind_ret_run _ _ _ _ _
             (parse_rtsp_setup_request_tcp _ _ _ _ Hsock
                (size_below_npos _ Hsz) Hpath Hth Htcp)).
  repeat split.
Qed.

Lemma setup_tcp_transport_answered_461_witness :
  handle_rtsp_setup setup_tcp_body example_session =
    (Ret false,
     after_response ("RTSP/1.0 461 Unsupported Transport" ++ CRLF ++ CRLF)
       example_socket example_session).
Proof.
  apply (setup_tcp_transport_answered_461 setup_tcp_body
           "RTP/AVP/TCP;unicast;interleaved=0-1" example_session
           example_socket).
  - reflexivity.
  - vm_compute. discriminate.
  - vm_compute. discriminate.
  - vm_compute. reflexivity.
  - vm_compute. reflexivity.
Defined.

Lemma parse_rtsp_setup_request_empty_path (body : string) (s : RtspSession) :
  size body < npos ->
  path_field body = EmptyString ->
  parse_rtsp_setup_request body s = (Ret None, s).
Proof.
  intros Hsz Hpath. unfold parse_rtsp_setup_request.
  rewrite (bind_lift_ret _ _ _ _ (parse_rtsp_path_field body Hsz)).
  now rewrite Hpath.
Qed.

(** C4: a SETUP (within the 1024-byte receive bound) whose Transport header
    value contains "RTP/AVP/TCP" is not answered 461 when the text between
    the first two spaces of its body is empty, as with two spaces after
    "CSeq:": [parse_rtsp_setup_request] applies [parse_rtsp_path] to the
    headers and returns [false] before it looks at the transport, and
    [handle_rtsp_setup] returns [false] with no response written and the
    session unchanged. *)
Theorem setup_tcp_with_empty_path_field_unanswered :
  forall body transport s,
    size body <= max_request_size ->
    path_field body = EmptyString ->
    transport_header body = Some transport ->
    contains transport "RTP/AVP/TCP" = true ->
    handle_rtsp_setup body s = (Ret false, s)
    /\ responses (snd (handle_rtsp_setup body s)) = responses s.
Proof.
  intros body transport s Hsz Hpath _ _.
  assert (Hrun : handle_rtsp_setup body s = (Ret false, s)).
  { unfold handle_rtsp_setup.
    now rewrite (bind_ret_run _ _ _ _ _
                   (parse_rtsp_setup_request_empty_path body s
                      (size_below_npos _ Hsz) Hpath)). }
  rewrite Hrun. split; reflexivity.
Qed.

Lemma setup_tcp_with_empty_path_field_unanswered_witness :
  handle_rtsp_setup setup_tcp_body_two_spaces example_session
    = (Ret false, example_session)
  /\ responses (snd (handle_rtsp_setup setup_tcp_body_two_spaces
                       example_session))
     = responses example_session.
Proof.
  apply (setup_tcp_with_empty_path_field_unanswered setup_tcp_body_two_spaces
           "RTP/AVP/TCP;unicast;interleaved=0-1" example_session).
  - vm_compute. discriminate.
  - vm_compute. reflexivity.
  - vm_compute. reflexivity.
  - vm_compute. reflexivity.
Defined.

(** ** Malformed request lines *)

Lemma malformed_request_line_detected (request : string) :
  size request < npos ->
  cannot_split_request request ->
  ((find_char request SP 0 =? npos)
   || (find_char request SP (size_t.add (find_char request SP 0) 1) =? npos)
   || (find_char request CR 0 =? npos))%bool = true.
Proof.
  intros Hsz [H|[H|H]].
  - now rewrite find_char_0, H.
  - unfold second_space in H. rewrite (find_char_0 request SP).
    destruct (index_char SP request) as [i|] eqn:Hi; [|reflexivity].
    pose proof (index_char_bound _ _ _ Hi) as Hb.
    rewrite add_small by (unfold size in Hsz; lia).
    replace (Z.of_nat i + 1) with (Z.of_nat (i + 1)) by lia.
    rewrite find_char_at.
    destruct (index_char SP (drop (i + 1) request)); [discriminate|].
    rewrite Z.eqb_refl, orb_true_r. reflexivity.
  - rewrite (find_char_0 request CR), H, Z.eqb_refl. apply orb_true_r.
Qed.

Lemma malformed_request_line_dispatch (request : string) :
  size request < npos ->
  cannot_split_request request ->
  handle_rtsp_request request = handle_rtsp_invalid_request request.
Proof.
  intros Hsz Hm. unfold handle_rtsp_request.
  now rewrite (malformed_request_line_detected request Hsz Hm).
Qed.

Lemma index_char_take (c : ascii) (n : nat) (s : string) (i : nat) :
  index_char c (take n s) = Some i -> index_char c s = Some i.
Proof.
  revert s i. induction n as [|n IH]; intros [|a s] i; simpl;
    try discriminate.
  destruct (Ascii.eqb a c); [trivial|].
  destruct (index_char c (take n s)) as [k|] eqn:Hk; [|discriminate].
  intros [= <-]. now rewrite (IH s k Hk).
Qed.

Lemma drop_take (k n : nat) (s : string) :
  drop k (take n s) = take (n - k) (drop k s).
Proof.
  revert n s. induction k as [|k IH]; intros n s.
  - cbn [drop]. now rewrite Nat.sub_0_r.
  - destruct n as [|n]; destruct s as [|a s]; cbn [take drop Nat.sub];
      try reflexivity; try (now destruct (n - k)%nat); apply IH.
Qed.

Lemma second_space_take (n : nat) (s : string) (j : nat) :
  second_space (take n s) = Some j -> second_space s = Some j.
Proof.
  unfold second_space.
  destruct (index_char SP (take n s)) as [i|] eqn:Hi; [|discriminate].
  rewrite (index_char_take SP n s i Hi), drop_take.
  destruct (index_char SP (take (n - (i + 1)) (drop (i + 1) s)))
    as [k|] eqn:Hk; [|discriminate].
  now rewrite (index_char_take SP _ _ k Hk).
Qed.

(** A buffer that the check cannot split has a malformed first line. *)
Lemma cannot_split_first_line_malformed (request : string) :
  cannot_split_request request -> first_line_malformed request.
Proof.
  intros H.
  assert (Hcases : second_space request = None
                   \/ index_char CR request = None).
  { destruct H as [H|[H|H]]; [left | now left | now right].
    unfold second_space. now rewrite H. }
  destruct Hcases as [H2|Hcr]; [left | now right].
  unfold first_line. destruct (index_char CR request) as [e|]; [|exact H2].
  destruct (second_space (take e request)) as [j|] eqn:Hj; [|reflexivity].
  rewrite (second_space_take e request j Hj) in H2. discriminate.
Qed.

(** C7, as stated, fails: a request whose first line has no space at all
    and that carries a CSeq header is answered 400 with that CSeq
    echoed. *)
Lemma malformed_request_line_echoes_cseq :
  ~ malformed_line_400_without_cseq example_session request_without_spaces.
Proof.
  intros H. specialize (H example_socket eq_refl).
  assert (Hsz : size request_without_spaces <= max_request_size)
    by (vm_compute; discriminate).
  assert (Hm : first_line_malformed request_without_spaces)
    by (left; reflexivity).
  specialize (H Hsz Hm). vm_compute in H. discriminate H.
Qed.

(** C7, amended: for every received request buffer (within the 1024-byte
    receive bound) that holds fewer than two spaces in all, or no CR
    anywhere -- a malformed first line whose missing space no later line
    supplies -- and in which the CSeq parser finds either no sequence
    number or a number, the session answers 400 Bad Request, with
    "CSeq: n" when the buffer holds a sequence number n other than -1 and
    with no CSeq header otherwise (in particular when the buffer holds no
    "CSeq: "); the session remains open: closed flag, active flag and
    client ports are unchanged. *)
Theorem malformed_request_line_answered_400 :
  forall request s sock,
    control_socket_ s = Some sock ->
    size request <= max_request_size ->
    cannot_split_request request ->
    first_line_malformed request
    /\ (forall cseq,
        parse_rtsp_command_sequence request = Ret cseq ->
        handle_rtsp_request request s =
          (Ret (tcp_transmit_ok sock),
           after_response
             (response_text 400 "Bad Request" (echoed_cseq cseq) EmptyString
                None)
             sock s)
        /\ is_closed (snd (handle_rtsp_request request s)) = is_closed s
        /\ is_active (snd (handle_rtsp_request request s)) = is_active s
        /\ client_rtp_port_ (snd (handle_rtsp_request request s))
           = client_rtp_port_ s
        /\ client_rtcp_port_ (snd (handle_rtsp_request request s))
           = client_rtcp_port_ s)
    /\ (contains request "CSeq: " = false ->
        handle_rtsp_request request s =
          (Ret (tcp_transmit_ok sock),
           after_response ("RTSP/1.0 400 Bad Request" ++ CRLF ++ CRLF)
             sock s)).
Proof.
  intros request s sock Hsock Hsz Hm.
  split; [now apply cannot_split_first_line_malformed|].
  rewrite (malformed_request_line_dispatch request (size_below_npos _ Hsz) Hm).
  split.
  - intros cseq Hcseq.
    rewrite (handle_rtsp_invalid_request_run _ _ _ _ Hsock Hcseq).
    repeat split.
  - intros Hno.
    now rewrite (handle_rtsp_invalid_request_run _ None _ _ Hsock
                   (parse_cseq_absent _ Hno)).
Qed.

Lemma malformed_request_line_answered_400_witness :
  handle_rtsp_request request_without_spaces example_session =
    (Ret true,
     after_response
       ("RTSP/1.0 400 Bad Request" ++ CRLF ++ "CSeq: 5" ++ CRLF ++ CRLF)
       example_socket example_session)
  /\ handle_rtsp_request request_without_cr example_session =
    (Ret true,
     after_response ("RTSP/1.0 400 Bad Request" ++ CRLF ++ CRLF)
       example_socket example_session).
Proof.
  split.
  - apply (proj1 (proj2
             (malformed_request_line_answered_400 request_without_spaces
                example_session example_socket eq_refl
                ltac:(vm_compute; discriminate)
                ltac:(right; left; reflexivity)))
             (Some 5)).
    vm_compute. reflexivity.
  - apply (proj2 (proj2
             (malformed_request_line_answered_400 request_without_cr
                example_session example_socket eq_refl
                ltac:(vm_compute; discriminate)
                ltac:(right; right; reflexivity)))).
    reflexivity.
Defined.

(** ** Control reader task *)

Lemma teardown_run (s : RtspSession) : teardown s = (Ret tt, torn_down s).
Proof. reflexivity. Qed.

Lemma control_task_fn_closed (s : RtspSession) :
  closed_ s = true -> control_task_fn s = (Ret true, s).
Proof.
  intros H. unfold control_task_fn, bind, get. now rewrite H.
Qed.

(** C5: a run of the control task on a session whose closed flag is set
    returns the stop signal and leaves the session, its sockets included,
    as it was (nothing received, nothing written, no member changed); on a
    session whose control socket is absent or not connected it returns the
    stop signal with the session closed and the control socket untouched
    (nothing written), having performed teardown when the session was not
    closed yet; and the task started on a closed session stops at its first
    run, so no request is serviced once the session is closed. *)
Theorem control_task_stops_when_closed_or_disconnected :
  forall s,
    (is_closed s = true -> control_task_fn s = (Ret true, s))
    /\ (is_connected s = false ->
        fst (control_task_fn s) = Ret true
        /\ is_closed (snd (control_task_fn s)) = true
        /\ control_socket_ (snd (control_task_fn s)) = control_socket_ s
        /\ (is_closed s = false ->
            control_task_fn s = (Ret true, torn_down s)))
    /\ (is_closed s = true ->
        forall iterations, run_task (S iterations) s = (Ret true, s)).
Proof.
  intros s. split; [apply control_task_fn_closed|]. split.
  - intros Hconn. unfold is_closed, is_connected in *.
    destruct (closed_ s) eqn:Hc.
    + rewrite (control_task_fn_closed s Hc). repeat split; try assumption.
      discriminate.
    + assert (Hrun : control_task_fn s = (Ret true, torn_down s)).
      { unfold control_task_fn, bind, get. rewrite Hc.
        destruct (control_socket_ s) as [sock|]; [|reflexivity].
        rewrite Hconn. reflexivity. }
      rewrite Hrun. repeat split.
  - intros Hc n. unfold is_closed in Hc. cbn [run_task].
    now rewrite (bind_ret_run _ _ _ _ _ (control_task_fn_closed s Hc)).
Qed.

Lemma control_task_stops_when_closed_or_disconnected_witness :
  control_task_fn (torn_down example_session)
    = (Ret true, torn_down example_session)
  /\ control_task_fn disconnected_session
    = (Ret true, torn_down disconnected_session)
  /\ run_task 3 (torn_down example_session)
    = (Ret true, torn_down example_session).
Proof.
  split; [|split].
  - exact (proj1 (control_task_stops_when_closed_or_disconnected
                    (torn_down example_session)) eq_refl).
  - exact (proj2 (proj2 (proj2
             (proj1 (proj2 (control_task_stops_when_closed_or_disconnected
                              disconnected_session)) eq_refl))) eq_refl).
  - exact (proj2 (proj2 (control_task_stops_when_closed_or_disconnected
                           (torn_down example_session))) eq_refl 2%nat).
Defined.

(** ** Media sender *)

(** C6, as stated, fails: on a session that is not active
    [send_rtp_packet] still hands a datagram to the RTP socket. *)
Lemma media_send_ignores_active_flag :
  ~ media_gated_on_active example_session.
Proof.
  intros H. destruct (H "frame" eq_refl) as [Hrtp _].
  vm_compute in Hrtp. discriminate Hrtp.
Qed.

(** C6, amended: [send_rtp_packet] and [send_rtcp_packet] do not consult the
    active flag; whatever the state of the session they hand the packet's
    data to the RTP (resp. RTCP) socket, addressed to the client address
    and the recorded client RTP (resp. RTCP) port, return what the socket's
    send returns, and change nothing else. *)
Theorem media_send_is_a_thin_transport :
  forall s packet,
    send_rtp_packet packet s =
      (Ret (udp_send_ok (rtp_socket_ s)),
       set_rtp_socket
         {| udp_send_ok := udp_send_ok (rtp_socket_ s);
            udp_sent :=
              (udp_sent (rtp_socket_ s) ++
               [{| dg_data := packet; dg_ip_address := client_address_ s;
                   dg_port := size_t.wrap (client_rtp_port_ s) |}])%list |}
         s)
    /\ send_rtcp_packet packet s =
      (Ret (udp_send_ok (rtcp_socket_ s)),
       set_rtcp_socket
         {| udp_send_ok := udp_send_ok (rtcp_socket_ s);
            udp_sent :=
              (udp_sent (rtcp_socket_ s) ++
               [{| dg_data := packet; dg_ip_address := client_address_ s;
                   dg_port := size_t.wrap (client_rtcp_port_ s) |}])%list |}
         s).
Proof. intros s packet. split; reflexivity. Qed.

(** ** Session flags *)

(** C10: [play()] sets the active flag whatever the state, and
    [teardown()] followed by [play()] leaves the session closed and active
    at once; a PLAY request handled on a session that is already closed
    has the same effect. *)
Theorem play_after_teardown_closed_and_active :
  forall s,
    is_active (snd (play s)) = true
    /\ (is_closed (snd (play (snd (teardown s)))) = true
        /\ is_active (snd (play (snd (teardown s)))) = true)
    /\ (forall body n sock,
          control_socket_ s = Some sock ->
          parse_rtsp_command_sequence body = Ret (Some n) ->
          is_closed (snd (handle_rtsp_play body (snd (teardown s)))) = true
          /\ is_active (snd (handle_rtsp_play body (snd (teardown s)))) = true).
Proof.
  intros s. split; [reflexivity|]. split; [split; reflexivity|].
  intros body n sock Hsock Hcseq.
  rewrite (handle_rtsp_play_run body n (snd (teardown s)) sock Hsock Hcseq).
  split; reflexivity.
Qed.

Lemma play_after_teardown_closed_and_active_witness :
  is_closed (snd (handle_rtsp_play play_body (snd (teardown example_session))))
    = true
  /\ is_active (snd (handle_rtsp_play play_body
                       (snd (teardown example_session)))) = true.
Proof.
  apply (play_after_teardown_closed_and_active example_session)
    with (n := 4) (sock := example_socket); reflexivity.
Defined.

(** ** A whole session *)


(** The six requests OPTIONS, DESCRIBE, SETUP, PLAY, PAUSE, TEARDOWN are
    answered in order, the ports of SETUP are recorded, the session is
    active between PLAY and PAUSE, and after TEARDOWN the task stops with
    the session closed. *)
Example whole_session_run :
  let final := snd (run_task 7 session_with_requests) in
  fst (run_task 7 session_with_requests) = Ret true
  /\ is_closed final = true
  /\ is_active final = false
  /\ client_rtp_port_ final = 5000
  /\ client_rtcp_port_ final = 5001
  /\ List.map (fun r => take 16 r) (responses final)
     = List.repeat ("RTSP/1.0 200 OK" ++ String CR EmptyString) 6
  /\ is_active (snd (run_task 4 session_with_requests)) = true
  /\ is_active (snd (run_task 5 session_with_requests)) = false
  /\ List.nth 2 (responses final) EmptyString
     = setup_response example_session 3 5000 5001.
Proof. vm_compute. repeat split. Qed.

(** * Further properties of the session *)

(** ** What every run leaves in place *)

Section Kept.

Variable Q : nat -> RtspSession -> RtspSession -> Prop.

Hypothesis Q_refl : forall s, Q 0 s s.
Hypothesis Q_trans :
  forall a b s1 s2 s3, Q a s1 s2 -> Q b s2 s3 -> Q (a + b) s1 s3.
Hypothesis Q_mono : forall a b s s', (a <= b)%nat -> Q a s s' -> Q b s s'.
Hypothesis Q_send :
  forall code message,
    status_in_use code message ->
    forall sequence_number headers body s,
      Q 1 s (snd (send_response code message sequence_number headers body s)).
Hypothesis Q_rtp_port : forall v s, Q 0 s (set_client_rtp_port v s).
Hypothesis Q_rtcp_port : forall v s, Q 0 s (set_client_rtcp_port v s).
Hypothesis Q_active : forall v s, Q 0 s (set_session_active v s).
Hypothesis Q_closed : forall s, Q 0 s (set_closed true s).
Hypothesis Q_receive :
  forall s sock max_num_bytes,
    control_socket_ s = Some sock ->
    Q 0 s (set_control_socket (Some (snd (tcp_receive sock max_num_bytes))) s).

Lemma post_ret {A} (a : A) : post (Q 0) (ret a).
Proof. intros s. apply Q_refl. Qed.

Lemma post_lift {A} (o : outcome A) : post (Q 0) (lift o).
Proof. intros s. apply Q_refl. Qed.

Lemma post_get : post (Q 0) get.
Proof. intros s. apply Q_refl. Qed.

Lemma post_weaken {A} (m : M A) (a b : nat) :
  (a <= b)%nat -> post (Q a) m -> post (Q b) m.
Proof. intros Hab H s. exact (Q_mono a b _ _ Hab (H s)). Qed.

Lemma post_bind {A B} (m : M A) (k : A -> M B) (a b : nat) :
  post (Q a) m -> (forall x, post (Q b) (k x)) -> post (Q (a + b)) (bind m k).
Proof.
  intros Hm Hk s. unfold bind. specialize (Hm s).
  destruct (m s) as [[x|e] s1]; cbn [snd] in *.
  - exact (Q_trans _ _ _ _ _ Hm (Hk x s1)).
  - apply (Q_mono a); [lia | exact Hm].
Qed.

Lemma post_quiet_then {A B} (m : M A) (k : A -> M B) (n : nat) :
  post (Q 0) m -> (forall x, post (Q n) (k x)) -> post (Q n) (bind m k).
Proof. intros Hm Hk. exact (post_bind m k 0 n Hm Hk). Qed.

Lemma post_then_quiet {A B} (m : M A) (k : A -> M B) (n : nat) :
  post (Q n) m -> (forall x, post (Q 0) (k x)) -> post (Q n) (bind m k).
Proof.
  intros Hm Hk. apply (post_weaken _ (n + 0)); [lia|].
  exact (post_bind m k n 0 Hm Hk).
Qed.

Lemma post_send code message sequence_number headers body :
  status_in_use code message ->
  post (Q 1) (send_response code message sequence_number headers body).
Proof. intros H s. now apply Q_send. Qed.

Lemma post_invalid_request (request : string) :
  post (Q 1) (handle_rtsp_invalid_request request).
Proof.
  unfold handle_rtsp_invalid_request.
  apply post_quiet_then; [apply post_lift|].
  intros [n|]; apply post_send; right; left; split; reflexivity.
Qed.

Lemma post_options (request : string) :
  post (Q 1) (handle_rtsp_options request).
Proof.
  unfold handle_rtsp_options.
  apply post_quiet_then; [apply post_lift|].
  intros [n|]; [|apply post_invalid_request].
  apply post_send. left. split; reflexivity.
Qed.

Lemma post_describe (request : string) :
  post (Q 1) (handle_rtsp_describe request).
Proof.
  unfold handle_rtsp_describe.
  apply post_quiet_then; [apply post_lift|].
  intros [n|]; [|apply post_invalid_request].
  apply post_quiet_then; [apply post_get|].
  intros s0. cbv zeta. apply post_send. left. split; reflexivity.
Qed.

Lemma post_play_member : post (Q 0) play.
Proof. intros s. apply Q_active. Qed.

Lemma post_pause_member : post (Q 0) pause.
Proof. intros s. apply Q_active. Qed.

Lemma post_teardown_member : post (Q 0) teardown.
Proof.
  intros s. change (snd (teardown s)) with
    (set_closed true (set_session_active false s)).
  exact (Q_trans 0 0 _ _ _ (Q_active false s) (Q_closed _)).
Qed.

Lemma post_play (request : string) : post (Q 1) (handle_rtsp_play request).
Proof.
  unfold handle_rtsp_play.
  apply post_quiet_then; [apply post_lift|].
  intros [n|]; [|apply post_invalid_request].
  apply post_quiet_then; [apply post_play_member|]. intros _.
  apply post_quiet_then; [apply post_get|].
  intros s0. cbv zeta. apply post_send. left. split; reflexivity.
Qed.

Lemma post_pause (request : string) : post (Q 1) (handle_rtsp_pause request).
Proof.
  unfold handle_rtsp_pause.
  apply post_quiet_then; [apply post_lift|].
  intros [n|]; [|apply post_invalid_request].
  apply post_quiet_then; [apply post_pause_member|]. intros _.
  apply post_quiet_then; [apply post_get|].
  intros s0. cbv zeta. apply post_send. left. split; reflexivity.
Qed.

Lemma post_teardown (request : string) :
  post (Q 1) (handle_rtsp_teardown request).
Proof.
  unfold handle_rtsp_teardown.
  apply post_quiet_then; [apply post_lift|].
  intros [n|]; [|apply post_invalid_request].
  apply post_quiet_then; [apply post_teardown_member|]. intros _.
  apply post_quiet_then; [apply post_get|].
  intros s0. cbv zeta. apply post_send. left. split; reflexivity.
Qed.

Lemma post_parse_setup (request : string) :
  post (Q 1) (parse_rtsp_setup_request request).
Proof.
  unfold parse_rtsp_setup_request.
  apply post_quiet_then; [apply post_lift|]. intros rtsp_path.
  destruct (empty rtsp_path);
    [apply (post_weaken _ 0); [lia | apply post_ret]|].
  destruct (find request "Transport: " 0 =? npos);
    [apply (post_weaken _ 0); [lia | apply post_ret]|].
  destruct (find_char request CR _ =? npos);
    [apply (post_weaken _ 0); [lia | apply post_ret]|].
  apply post_quiet_then; [apply post_lift|]. intros transport.
  destruct (empty transport);
    [apply (post_weaken _ 0); [lia | apply post_ret]|].
  destruct (negb _).
  { apply post_then_quiet; [|intros _; apply post_ret].
    apply post_send. right. right. split; reflexivity. }
  apply (post_weaken _ 0); [lia|].
  apply post_quiet_then; [apply post_lift|]. intros rtp_port.
  destruct (empty rtp_port); [apply post_ret|].
  apply post_quiet_then; [apply post_lift|]. intros rtcp_port.
  destruct (empty rtcp_port); [apply post_ret|].
  apply post_quiet_then; [apply post_lift|]. intros p1.
  apply post_quiet_then; [apply post_lift|]. intros p2.
  apply post_ret.
Qed.

Lemma post_setup (request : string) : post (Q 1) (handle_rtsp_setup request).
Proof.
  intros s. unfold handle_rtsp_setup, bind at 1.
  pose proof (post_parse_setup request s) as Hparse.
  destruct (parse_rtsp_setup_request request s) as [[[r|]|e] s1] eqn:E;
    cbn [snd] in *; try exact Hparse.
  assert (Hs : s1 = s).
  { pose proof (parse_rtsp_setup_request_state request s r) as H.
    rewrite E in H. specialize (H eq_refl). now injection H. }
  subst s1. destruct r as [[path p1] p2].
  clear E Hparse. revert s.
  change (post (Q 1)
            (cseq <- lift (parse_rtsp_command_sequence request) ;;
             match cseq with
             | None => handle_rtsp_invalid_request request
             | Some sequence_number =>
                 modify (set_client_rtp_port p1) ;;
                 modify (set_client_rtcp_port p2) ;;
                 s0 <- get ;;
                 send_response 200 "OK" sequence_number
                   ("Session: " ++ to_string (session_id_ s0) ++ CRLF ++
                    "Transport: RTP/AVP;unicast;client_port="
                      ++ to_string p1 ++ "-" ++ to_string p2 ++ CRLF)
                   EmptyString
             end)).
  apply post_quiet_then; [apply post_lift|].
  intros [n|]; [|apply post_invalid_request].
  apply post_quiet_then; [intros s; apply Q_rtp_port|]. intros _.
  apply post_quiet_then; [intros s; apply Q_rtcp_port|]. intros _.
  apply post_quiet_then; [apply post_get|].
  intros s0. cbv zeta. apply post_send. left. split; reflexivity.
Qed.

Lemma post_request (request : string) :
  post (Q 1) (handle_rtsp_request request).
Proof.
  unfold handle_rtsp_request.
  destruct (_ || _ || _)%bool; [apply post_invalid_request|].
  apply post_quiet_then; [apply post_lift|]. intros method.
  apply post_quiet_then; [apply post_lift|]. intros _.
  apply post_quiet_then; [apply post_lift|]. intros _.
  apply post_quiet_then; [apply post_lift|]. intros request_body.
  destruct (String.eqb method "OPTIONS"); [apply post_options|].
  destruct (String.eqb method "DESCRIBE"); [apply post_describe|].
  destruct (String.eqb method "SETUP"); [apply post_setup|].
  destruct (String.eqb method "PLAY"); [apply post_play|].
  destruct (String.eqb method "PAUSE"); [apply post_pause|].
  destruct (String.eqb method "TEARDOWN"); [apply post_teardown|].
  apply post_invalid_request.
Qed.

Lemma post_receive (max_num_bytes : Z) : post (Q 0) (receive max_num_bytes).
Proof.
  intros s. unfold receive, bind, get.
  destruct (control_socket_ s) as [sock|] eqn:Hsock; [|apply Q_refl].
  pose proof (Q_receive s sock max_num_bytes Hsock) as H.
  destruct (tcp_receive sock max_num_bytes) as [buffer sock'].
  exact H.
Qed.

Lemma post_control_task : post (Q 1) control_task_fn.
Proof.
  intros s. unfold control_task_fn, bind at 1, get at 1.
  destruct (closed_ s);
    [apply (Q_mono 0); [lia | apply Q_refl]|].
  destruct (control_socket_ s) as [sock|].
  - destruct (negb (tcp_connected sock)).
    + apply (Q_mono 0); [lia|].
      apply (post_then_quiet teardown (fun _ => ret true) 0
               post_teardown_member (fun _ => post_ret true)).
    + revert s.
      apply post_quiet_then; [apply post_receive|].
      intros [request|]; [|apply (post_weaken _ 0); [lia | apply post_ret]].
      apply post_then_quiet; [apply post_request | intros _; apply post_ret].
  - apply (Q_mono 0); [lia|].
    apply (post_then_quiet teardown (fun _ => ret true) 0
             post_teardown_member (fun _ => post_ret true)).
Qed.

Lemma post_run_task (iterations : nat) :
  post (Q iterations) (run_task iterations).
Proof.
  induction iterations as [|n IH]; cbn [run_task]; [apply post_ret|].
  apply (post_bind control_task_fn _ 1 n post_control_task).
  intros [|]; [apply (post_weaken _ 0); [lia | apply post_ret] | exact IH].
Qed.

End Kept.

Lemma session_kept_refl (s : RtspSession) : session_kept 0 s s.
Proof.
  do 7 (split; [tauto|]).
  exists []. rewrite List.app_nil_r.
  split; [reflexivity|]. split; [simpl; lia | constructor].
Qed.

Lemma session_kept_trans (a b : nat) (s1 s2 s3 : RtspSession) :
  session_kept a s1 s2 -> session_kept b s2 s3 -> session_kept (a + b) s1 s3.
Proof.
  intros (H1 & H2 & H3 & H4 & H5 & H6 & H7 & l1 & Hl1 & Hn1 & Hf1)
         (G1 & G2 & G3 & G4 & G5 & G6 & G7 & l2 & Hl2 & Hn2 & Hf2).
  do 6 (split; [congruence|]). split; [tauto|].
  exists (l1 ++ l2)%list. split; [|split].
  - rewrite Hl2, Hl1. now rewrite List.app_assoc.
  - rewrite List.length_app. lia.
  - apply List.Forall_app. now split.
Qed.

Lemma session_kept_mono (a b : nat) (s s' : RtspSession) :
  (a <= b)%nat -> session_kept a s s' -> session_kept b s s'.
Proof.
  intros Hab (H1 & H2 & H3 & H4 & H5 & H6 & H7 & l & Hl & Hn & Hf).
  do 7 (split; [assumption|]).
  exists l. split; [assumption|]. split; [lia | assumption].
Qed.

Lemma prefix_append (a b : string) : String.prefix a (a ++ b) = true.
Proof.
  induction a as [|x a IH]; simpl; [now destruct b|].
  destruct (ascii_dec x x) as [_|N]; [exact IH | congruence].
Qed.

Lemma known_status_response code message cseq headers body :
  status_in_use code message ->
  known_status (response_text code message cseq headers body).
Proof.
  intros [[-> ->]|[[-> ->]|[-> ->]]]; unfold known_status, response_text;
    match goal with
    | |- context [append _ (append _ (append _ (append _ (append CRLF ?X))))] =>
        set (rest := X)
    end.
  - left. exact (prefix_append ("RTSP/1.0 200 OK" ++ CRLF) rest).
  - right. left.
    exact (prefix_append ("RTSP/1.0 400 Bad Request" ++ CRLF) rest).
  - right. right.
    exact (prefix_append ("RTSP/1.0 461 Unsupported Transport" ++ CRLF) rest).
Qed.

Lemma session_kept_send code message :
  status_in_use code message ->
  forall sequence_number headers body s,
    session_kept 1 s
      (snd (send_response code message sequence_number headers body s)).
Proof.
  intros Hst sequence_number headers body s.
  destruct (control_socket_ s) as [sock|] eqn:Hsock.
  - rewrite (send_response_run _ _ _ _ _ _ _ Hsock). cbn [snd].
    do 7 (split; [tauto|]).
    eexists [_]. unfold responses. rewrite Hsock.
    split; [reflexivity|]. split; [simpl; lia|].
    constructor; [|constructor]. now apply known_status_response.
  - assert (Hrun : snd (send_response code message sequence_number headers
                          body s) = s).
    { unfold send_response, transmit, bind, get. now rewrite Hsock. }
    rewrite Hrun. apply (session_kept_mono 0); [lia | apply session_kept_refl].
Qed.

Lemma session_kept_member (f : RtspSession -> RtspSession) :
  (forall s, session_id_ (f s) = session_id_ s
             /\ server_address_ (f s) = server_address_ s
             /\ rtsp_path_ (f s) = rtsp_path_ s
             /\ client_address_ (f s) = client_address_ s
             /\ rtp_socket_ (f s) = rtp_socket_ s
             /\ rtcp_socket_ (f s) = rtcp_socket_ s
             /\ (closed_ s = true -> closed_ (f s) = true)
             /\ responses (f s) = responses s) ->
  forall s, session_kept 0 s (f s).
Proof.
  intros H s. destruct (H s) as (H1 & H2 & H3 & H4 & H5 & H6 & H7 & H8).
  do 7 (split; [assumption|]).
  exists []. rewrite List.app_nil_r.
  split; [assumption|]. split; [simpl; lia | constructor].
Qed.

Lemma session_kept_receive s sock max_num_bytes :
  control_socket_ s = Some sock ->
  session_kept 0 s
    (set_control_socket (Some (snd (tcp_receive sock max_num_bytes))) s).
Proof.
  intros Hsock. do 7 (split; [tauto|]).
  exists []. rewrite List.app_nil_r.
  split; [|split; [simpl; lia | constructor]].
  unfold responses. rewrite Hsock. cbn [control_socket_ set_control_socket].
  unfold tcp_receive. destruct (tcp_incoming sock) as [|[data|] rest];
    reflexivity.
Qed.

(** X1: whatever the request buffer -- well formed or not, answered or
    ending in an exception -- [handle_rtsp_request] leaves the session id,
    the server address, the RTSP path, the client address and both UDP
    sockets as they were, never reopens a closed session, and writes at
    most one response, which starts with the status line 200 OK, 400 Bad
    Request or 461 Unsupported Transport. *)
Theorem handle_rtsp_request_keeps_session :
  forall request s,
    session_kept 1 s (snd (handle_rtsp_request request s)).
Proof.
  intros request.
  apply (post_request (fun n => session_kept n)); intros.
  - apply session_kept_refl.
  - eapply session_kept_trans; eassumption.
  - eapply session_kept_mono; eassumption.
  - now apply session_kept_send.
  - apply (session_kept_member (set_client_rtp_port v)). member_kept.
  - apply (session_kept_member (set_client_rtcp_port v)). member_kept.
  - apply (session_kept_member (set_session_active v)). member_kept.
  - apply (session_kept_member (set_closed true)). member_kept.
Qed.

(** X2: a run of [control_task_fn] keeps the same members in place and
    writes at most one response, and [iterations] runs of the task write at
    most [iterations] responses, all with a known status line; a session
    that is closed stays closed through every run. *)
Theorem control_task_keeps_session :
  forall iterations s,
    session_kept 1 s (snd (control_task_fn s))
    /\ session_kept iterations s (snd (run_task iterations s)).
Proof.
  intros iterations s.
  assert (Hrefl := session_kept_refl).
  assert (Htrans : forall a b s1 s2 s3,
             session_kept a s1 s2 -> session_kept b s2 s3 ->
             session_kept (a + b) s1 s3)
    by (intros; eapply session_kept_trans; eassumption).
  assert (Hmono := session_kept_mono).
  assert (Hsend := session_kept_send).
  assert (Hrtp : forall v s0, session_kept 0 s0 (set_client_rtp_port v s0))
    by (intros v; apply session_kept_member; member_kept).
  assert (Hrtcp : forall v s0, session_kept 0 s0 (set_client_rtcp_port v s0))
    by (intros v; apply session_kept_member; member_kept).
  assert (Hact : forall v s0, session_kept 0 s0 (set_session_active v s0))
    by (intros v; apply session_kept_member; member_kept).
  assert (Hclo : forall s0, session_kept 0 s0 (set_closed true s0))
    by (apply session_kept_member; member_kept).
  assert (Hrecv := session_kept_receive).
  split.
  - exact (post_control_task (fun n => session_kept n) Hrefl Htrans Hmono
             Hsend Hrtp Hrtcp Hact Hclo Hrecv s).
  - exact (post_run_task (fun n => session_kept n) Hrefl Htrans Hmono
             Hsend Hrtp Hrtcp Hact Hclo Hrecv iterations s).
Qed.

Lemma flags_kept_send code message sequence_number headers body s :
  flags_kept s
    (snd (send_response code message sequence_number headers body s)).
Proof.
  destruct (control_socket_ s) as [sock|] eqn:Hsock.
  - rewrite (send_response_run _ _ _ _ _ _ _ Hsock). split; reflexivity.
  - unfold send_response, transmit, bind, get. rewrite Hsock.
    split; reflexivity.
Qed.

(** X3: OPTIONS, DESCRIBE, SETUP and the invalid-request handler never
    touch the closed flag or the active flag, whatever the request body and
    whether they answer, fail or throw: only PLAY, PAUSE and TEARDOWN move
    the session between its states. *)
Theorem stateless_handlers_keep_flags :
  forall body s,
    flags_kept s (snd (handle_rtsp_options body s))
    /\ flags_kept s (snd (handle_rtsp_describe body s))
    /\ flags_kept s (snd (handle_rtsp_setup body s))
    /\ flags_kept s (snd (handle_rtsp_invalid_request body s)).
Proof.
  intros body s.
  assert (Hrefl : forall s0, flags_kept s0 s0) by (split; reflexivity).
  assert (Htrans : forall (a b : nat) s1 s2 s3,
             flags_kept s1 s2 -> flags_kept s2 s3 -> flags_kept s1 s3).
  { intros a b s1 s2 s3 [H1 H2] [G1 G2]. split; congruence. }
  assert (Hmono : forall (a b : nat) s0 s', (a <= b)%nat ->
             flags_kept s0 s' -> flags_kept s0 s') by (intros; assumption).
  assert (Hsend : forall code message, status_in_use code message ->
             forall n h b s0,
               flags_kept s0 (snd (send_response code message n h b s0)))
    by (intros; apply flags_kept_send).
  assert (Hrtp : forall v s0, flags_kept s0 (set_client_rtp_port v s0))
    by (split; reflexivity).
  assert (Hrtcp : forall v s0, flags_kept s0 (set_client_rtcp_port v s0))
    by (split; reflexivity).
  repeat split.
  - exact (proj1 (post_options (fun _ => flags_kept) Hrefl Htrans Hmono Hsend
                    body s)).
  - exact (proj2 (post_options (fun _ => flags_kept) Hrefl Htrans Hmono Hsend
                    body s)).
  - exact (proj1 (post_describe (fun _ => flags_kept) Hrefl Htrans Hmono Hsend
                    body s)).
  - exact (proj2 (post_describe (fun _ => flags_kept) Hrefl Htrans Hmono Hsend
                    body s)).
  - exact (proj1 (post_setup (fun _ => flags_kept) Hrefl Htrans Hmono Hsend
                    Hrtp Hrtcp body s)).
  - exact (proj2 (post_setup (fun _ => flags_kept) Hrefl Htrans Hmono Hsend
                    Hrtp Hrtcp body s)).
  - exact (proj1 (post_invalid_request (fun _ => flags_kept) Hrefl Htrans
                    Hmono Hsend body s)).
  - exact (proj2 (post_invalid_request (fun _ => flags_kept) Hrefl Htrans
                    Hmono Hsend body s)).
Qed.

(** X4: [control_task_fn] asks the task to stop only when the session is
    closed or its control socket is absent or not connected; on an open,
    connected session it returns [false] -- also when the request was bad
    and its handler returned [false] -- unless an exception leaves the
    handler. *)
Theorem control_task_stops_only_when_closed_or_disconnected :
  forall s,
    (fst (control_task_fn s) = Ret true ->
     is_closed s = true \/ is_connected s = false)
    /\ (is_closed s = false -> is_connected s = true ->
        fst (control_task_fn s) = Ret false
        \/ exists e, fst (control_task_fn s) = Throw e).
Proof.
  intros s. unfold is_closed, is_connected.
  assert (Hrun : closed_ s = false ->
                 forall sock, control_socket_ s = Some sock ->
                 tcp_connected sock = true ->
                 fst (control_task_fn s) = Ret false
                 \/ exists e, fst (control_task_fn s) = Throw e).
  { intros Hc sock Hsock Hconn.
    assert (E : control_task_fn s =
                (received <- receive max_request_size ;;
                 match received with
                 | Some request => _ <- handle_rtsp_request request ;; ret false
                 | None => ret false
                 end) s).
    { unfold control_task_fn, bind at 1, get at 1.
      now rewrite Hc, Hsock, Hconn. }
    rewrite E. unfold bind.
    destruct (receive max_request_size s) as [[[request|]|e] s1];
      [| left; reflexivity | right; eexists; reflexivity].
    destruct (handle_rtsp_request request s1) as [[b|e] s2];
      [left; reflexivity | right; eexists; reflexivity]. }
  split.
  - intros Hstop. destruct (closed_ s) eqn:Hc; [now left|]. right.
    destruct (control_socket_ s) as [sock|] eqn:Hsock; [|reflexivity].
    destruct (tcp_connected sock) eqn:Hconn; [|reflexivity].
    destruct (Hrun eq_refl sock eq_refl Hconn) as [H|[e H]];
      rewrite H in Hstop; discriminate.
  - intros Hc Hconn.
    destruct (control_socket_ s) as [sock|] eqn:Hsock; [|discriminate].
    exact (Hrun Hc sock eq_refl Hconn).
Qed.

Lemma control_task_stops_only_when_closed_or_disconnected_witness :
  (is_closed disconnected_session = true
   \/ is_connected disconnected_session = false)
  /\ (fst (control_task_fn session_with_requests) = Ret false
      \/ exists e, fst (control_task_fn session_with_requests) = Throw e).
Proof.
  split.
  - apply (proj1 (control_task_stops_only_when_closed_or_disconnected
                    disconnected_session)).
    reflexivity.
  - apply (proj2 (control_task_stops_only_when_closed_or_disconnected
                    session_with_requests)); reflexivity.
Defined.

(** ** The request line *)

Lemma index_char_stop (c : ascii) (a b : string) :
  index_char c a = None ->
  index_char c (a ++ String c b) = Some (String.length a).
Proof.
  intros Ha. rewrite (index_char_append_none c a _ Ha).
  cbn [index_char]. rewrite Ascii.eqb_refl. cbn [option_map].
  f_equal. lia.
Qed.

Lemma index_char_skip (c x : ascii) (a b : string) :
  index_char c a = None ->
  Ascii.eqb x c = false ->
  index_char c (a ++ String x b)
  = option_map (fun j => (String.length a + 1 + j)%nat) (index_char c b).
Proof.
  intros Ha Hx. rewrite (index_char_append_none c a _ Ha).
  cbn [index_char]. rewrite Hx.
  destruct (index_char c b); cbn [option_map]; [f_equal; lia | reflexivity].
Qed.

Lemma drop_past (a b : string) (x : ascii) :
  drop (String.length a + 1) (a ++ String x b) = b.
Proof. now rewrite drop_append_more. Qed.

(** The parts of a request made of a request line and a body are found
    where the handler looks for them. *)
Lemma request_text_parts (method path version body : string) :
  index_char SP method = None ->
  index_char SP path = None ->
  index_char CR method = None ->
  index_char CR path = None ->
  index_char CR version = None ->
  request_method (request_text method path version body) = Some method
  /\ second_space (request_text method path version body)
     = Some (String.length method + 1 + String.length path)%nat
  /\ request_body (request_text method path version body) = Some body.
Proof.
  intros Hm Hp Hcm Hcp Hcv. unfold request_text.
  change (" " ++ path ++ " " ++ version ++ CRLF ++ body)
    with (String SP
            (path ++ String SP (version ++ String CR (String LF body)))).
  split; [|split].
  - unfold request_method. rewrite (index_char_stop SP method _ Hm).
    cbn [option_map]. now rewrite take_append.
  - unfold second_space. rewrite (index_char_stop SP method _ Hm).
    rewrite drop_past, (index_char_stop SP path _ Hp). reflexivity.
  - unfold request_body.
    rewrite (index_char_skip CR SP method _ Hcm eq_refl).
    rewrite (index_char_skip CR SP path _ Hcp eq_refl).
    rewrite (index_char_stop CR version _ Hcv). cbn [option_map].
    set (e := (String.length method + 1
               + (String.length path + 1 + String.length version))%nat).
    assert (Hdrop : drop (e + 2)
                      (method ++ String SP (path ++ String SP
                         (version ++ String CR (String LF body)))) = body).
    { unfold e.
      replace (String.length method + 1
               + (String.length path + 1 + String.length version) + 2)%nat
        with (String.length method
              + (1 + (String.length path
                      + (1 + (String.length version + 2)))))%nat by lia.
      rewrite drop_append_more. cbn [drop Nat.add].
      rewrite drop_append_more. cbn [drop Nat.add].
      now rewrite drop_append_more. }
    rewrite Hdrop.
    destruct (Nat.leb_spec (e + 2)
                (String.length
                   (method ++ String SP (path ++ String SP
                      (version ++ String CR (String LF body))))))
      as [_|Hlt]; [reflexivity|].
    exfalso. revert Hlt. unfold e.
    rewrite !length_append. cbn [String.length].
    rewrite !length_append. cbn [String.length].
    rewrite !length_append. cbn [String.length]. lia.
Qed.

(** X5: a request "METHOD SP PATH SP VERSION CR LF body" (no space or CR in
    the method and the path, no CR in the version, within the 1024-byte
    receive bound) is handed to the handler of its method, which receives
    exactly the body; the path and the version play no part in the
    answer. *)
Theorem request_reaches_handler_of_method :
  forall method path version body,
    size (request_text method path version body) <= max_request_size ->
    index_char SP method = None ->
    index_char SP path = None ->
    index_char CR method = None ->
    index_char CR path = None ->
    index_char CR version = None ->
    handle_rtsp_request (request_text method path version body)
    = handler_of method body.
Proof.
  intros method path version body Hsz Hm Hp Hcm Hcp Hcv.
  destruct (request_text_parts method path version body Hm Hp Hcm Hcp Hcv)
    as (Hmethod & Hsecond & Hbody).
  exact (handle_rtsp_request_dispatch _ method body _
           (size_below_npos _ Hsz) Hmethod Hsecond Hbody).
Qed.

Lemma request_reaches_handler_of_method_witness :
  handle_rtsp_request
    (request_text "PAUSE" "rtsp://host/stream" "RTSP/1.0"
       ("CSeq: 5" ++ CRLF ++ CRLF))
  = handle_rtsp_pause ("CSeq: 5" ++ CRLF ++ CRLF).
Proof.
  apply (request_reaches_handler_of_method "PAUSE" "rtsp://host/stream"
           "RTSP/1.0" ("CSeq: 5" ++ CRLF ++ CRLF));
    solve [reflexivity | vm_compute; discriminate].
Defined.

Lemma handler_of_unsupported (method : string) :
  supported_method method = false ->
  handler_of method = handle_rtsp_invalid_request.
Proof.
  unfold supported_method, handler_of.
  repeat match goal with
         | |- context [String.eqb method ?m] => destruct (String.eqb method m)
         end; cbn [orb]; intros H; (discriminate H || reflexivity).
Qed.

(** X7: a well-split request whose method is none of OPTIONS, DESCRIBE,
    SETUP, PLAY, PAUSE, TEARDOWN (the comparison is exact, so "options"
    is none of them) is answered 400 Bad Request, with the CSeq of its body
    echoed when there is one other than -1, and changes nothing else of
    the session -- unless the CSeq parser throws on the body, in which
    case the exception leaves the handler, nothing is written and the
    session is unchanged. *)
Theorem unknown_method_answered_400 :
  forall method path version body s sock,
    control_socket_ s = Some sock ->
    size (request_text method path version body) <= max_request_size ->
    index_char SP method = None ->
    index_char SP path = None ->
    index_char CR method = None ->
    index_char CR path = None ->
    index_char CR version = None ->
    supported_method method = false ->
    handle_rtsp_request (request_text method path version body) s =
      match parse_rtsp_command_sequence body with
      | Ret cseq =>
          (Ret (tcp_transmit_ok sock),
           after_response
             (response_text 400 "Bad Request" (echoed_cseq cseq) EmptyString
                None)
             sock s)
      | Throw e => (Throw e, s)
      end.
Proof.
  intros method path version body s sock Hsock Hsz Hm Hp Hcm Hcp Hcv Hun.
  destruct (request_text_parts method path version body Hm Hp Hcm Hcp Hcv)
    as (Hmethod & Hsecond & Hbody).
  rewrite (handle_rtsp_request_dispatch _ method body _
             (size_below_npos _ Hsz) Hmethod Hsecond Hbody).
  rewrite (handler_of_unsupported method Hun).
  destruct (parse_rtsp_command_sequence body) as [cseq|e] eqn:Hcseq.
  - exact (handle_rtsp_invalid_request_run body cseq s sock Hsock Hcseq).
  - unfold handle_rtsp_invalid_request, bind, lift. now rewrite Hcseq.
Qed.

Lemma unknown_method_answered_400_witness :
  handle_rtsp_request
    (request_text "options" "rtsp://host/stream" "RTSP/1.0"
       ("CSeq: 9" ++ CRLF ++ CRLF))
    example_session =
    (Ret true,
     after_response
       ("RTSP/1.0 400 Bad Request" ++ CRLF ++ "CSeq: 9" ++ CRLF ++ CRLF)
       example_socket example_session)
  /\ handle_rtsp_request
       (request_text "FOO" "rtsp://host/stream" "RTSP/1.0" cseq_not_a_number)
       example_session =
     (Throw invalid_argument, example_session).
Proof.
  split.
  - apply (unknown_method_answered_400 "options" "rtsp://host/stream"
             "RTSP/1.0" ("CSeq: 9" ++ CRLF ++ CRLF) example_session
             example_socket);
      solve [reflexivity | vm_compute; discriminate].
  - apply (unknown_method_answered_400 "FOO" "rtsp://host/stream"
             "RTSP/1.0" cseq_not_a_number example_session example_socket);
      solve [reflexivity | vm_compute; discriminate].
Defined.

(** X6: a buffer that has its two spaces and whose first CR is its last
    character makes [handle_rtsp_request] throw [std::out_of_range] -- the
    body is cut two characters after the CR, one past the end -- and
    nothing is written. *)
Theorem request_ending_at_cr_throws :
  forall request s j e,
    size request <= max_request_size ->
    second_space request = Some j ->
    index_char CR request = Some e ->
    S e = String.length request ->
    handle_rtsp_request request s = (Throw out_of_range, s).
Proof.
  intros request s j e Hsz Hj He Hlast.
  apply size_below_npos in Hsz. unfold second_space in Hj.
  destruct (index_char SP request) as [i|] eqn:Hi; [|discriminate].
  destruct (index_char SP (drop (i + 1) request)) as [j'|] eqn:Hj';
    [|discriminate].
  pose proof (index_char_bound _ _ _ Hi) as Hbi.
  pose proof (index_char_bound _ _ _ Hj') as Hbj. rewrite length_drop in Hbj.
  unfold size in Hsz. unfold handle_rtsp_request.
  rewrite (find_char_0 request SP), Hi, (find_char_0 request CR), He.
  rewrite add_small by lia.
  replace (Z.of_nat i + 1) with (Z.of_nat (i + 1)) by lia.
  rewrite find_char_at, Hj'.
  destruct (Z.eqb_spec (Z.of_nat i) npos) as [E|_]; [lia|].
  destruct (Z.eqb_spec (Z.of_nat (i + 1) + Z.of_nat j') npos) as [E|_]; [lia|].
  destruct (Z.eqb_spec (Z.of_nat e) npos) as [E|_]; [lia|].
  cbn [orb]. change 0 with (Z.of_nat 0).
  rewrite (substr_at request 0 i) by lia. rewrite bind_lift_ret_fun.
  destruct (substr_ret request (Z.of_nat (i + 1))
              (size_t.sub
                 (size_t.sub (Z.of_nat (i + 1) + Z.of_nat j') (Z.of_nat i)) 1)
              ltac:(unfold size; lia)) as [r1 ->].
  rewrite bind_lift_ret_fun. rewrite add_small by lia.
  destruct (substr_ret request (Z.of_nat (i + 1) + Z.of_nat j' + 1)
              (size_t.sub
                 (size_t.sub (Z.of_nat e) (Z.of_nat (i + 1) + Z.of_nat j')) 1)
              ltac:(unfold size; lia)) as [r2 ->].
  rewrite bind_lift_ret_fun. rewrite add_small by lia.
  unfold substr, size.
  destruct (Z.ltb_spec (Z.of_nat (String.length request)) (Z.of_nat e + 2));
    [reflexivity | lia].
Qed.

Lemma request_ending_at_cr_throws_witness :
  handle_rtsp_request request_ending_at_cr example_session
  = (Throw out_of_range, example_session).
Proof.
  apply (request_ending_at_cr_throws request_ending_at_cr example_session
           26 35);
    solve [reflexivity | vm_compute; discriminate].
Defined.

(** X8: from a text made of a method, a space, a path, a space and more
    text (no space in the method and the path) [parse_rtsp_path] returns
    the path; a text without any space is returned whole; and within the
    receive bound [parse_rtsp_path] never throws. *)
Theorem parse_rtsp_path_reads_the_path :
  (forall method path rest,
      size (method ++ " " ++ path ++ " " ++ rest) <= max_request_size ->
      index_char SP method = None ->
      index_char SP path = None ->
      parse_rtsp_path (method ++ " " ++ path ++ " " ++ rest) = Ret path)
  /\ (forall request,
         size request <= max_request_size ->
         index_char SP request = None ->
         parse_rtsp_path request = Ret request)
  /\ (forall request,
         size request <= max_request_size ->
         exists path, parse_rtsp_path request = Ret path).
Proof.
  split; [|split].
  - intros method path rest Hsz Hm Hp.
    rewrite (parse_rtsp_path_field _ (size_below_npos _ Hsz)). f_equal.
    unfold path_field.
    change (" " ++ path ++ " " ++ rest)
      with (String SP (path ++ String SP rest)).
    rewrite (index_char_stop SP method _ Hm), drop_past.
    rewrite (index_char_stop SP path _ Hp). apply take_append.
  - intros request Hsz Hnone.
    rewrite (parse_rtsp_path_field _ (size_below_npos _ Hsz)).
    unfold path_field. now rewrite Hnone.
  - intros request Hsz. exists (path_field request).
    exact (parse_rtsp_path_field _ (size_below_npos _ Hsz)).
Qed.

Lemma parse_rtsp_path_reads_the_path_witness :
  parse_rtsp_path ("SETUP" ++ " " ++ "rtsp://host/stream" ++ " " ++ "RTSP/1.0")
    = Ret "rtsp://host/stream"
  /\ parse_rtsp_path "TEARDOWN" = Ret "TEARDOWN"
  /\ exists path, parse_rtsp_path EmptyString = Ret path.
Proof.
  split; [|split].
  - apply (proj1 parse_rtsp_path_reads_the_path "SETUP" "rtsp://host/stream"
             "RTSP/1.0"); solve [reflexivity | vm_compute; discriminate].
  - apply (proj1 (proj2 parse_rtsp_path_reads_the_path) "TEARDOWN");
      solve [reflexivity | vm_compute; discriminate].
  - apply (proj2 (proj2 parse_rtsp_path_reads_the_path) EmptyString).
    vm_compute. discriminate.
Defined.

(** ** Handlers *)

Lemma bad_request_text :
  response_text 400 "Bad Request" None EmptyString None = bad_request_response.
Proof. reflexivity. Qed.

Lemma ok_with_session_text (s : RtspSession) (n : Z) (more : string) :
  n <> -1 ->
  response_text 200 "OK" (supplied_cseq n)
    ("Session: " ++ to_string (session_id_ s) ++ CRLF ++ more) None
  = ok_with_session s n more.
Proof.
  intros Hn. unfold response_text, supplied_cseq, ok_with_session,
    get_session_id.
  destruct (Z.eqb_spec n (-1)) as [E|_]; [contradiction|].
  repeat rewrite append_assoc. reflexivity.
Qed.

(** X9: without a "CSeq: " in the body, OPTIONS, DESCRIBE, PLAY, PAUSE and
    TEARDOWN all answer 400 Bad Request without a CSeq header and change
    nothing else: a PLAY without CSeq does not activate the session, a
    TEARDOWN without CSeq does not close it. *)
Theorem handlers_without_cseq_answer_400 :
  forall body s sock,
    control_socket_ s = Some sock ->
    contains body "CSeq: " = false ->
    let bad := (Ret (tcp_transmit_ok sock),
                after_response bad_request_response sock s) in
    handle_rtsp_options body s = bad
    /\ handle_rtsp_describe body s = bad
    /\ handle_rtsp_play body s = bad
    /\ handle_rtsp_pause body s = bad
    /\ handle_rtsp_teardown body s = bad.
Proof.
  intros body s sock Hsock Hno bad.
  pose proof (parse_cseq_absent body Hno) as Hcseq.
  pose proof (handle_rtsp_invalid_request_run body None s sock Hsock Hcseq)
    as Hbad.
  cbn [echoed_cseq] in Hbad. rewrite bad_request_text in Hbad.
  unfold handle_rtsp_options, handle_rtsp_describe, handle_rtsp_play,
    handle_rtsp_pause, handle_rtsp_teardown.
  rewrite !(bind_lift_ret _ _ _ _ Hcseq). repeat split; exact Hbad.
Qed.

Lemma handlers_without_cseq_answer_400_witness :
  handle_rtsp_play (String CR (String LF EmptyString)) example_session
    = (Ret true,
       after_response bad_request_response example_socket example_session)
  /\ handle_rtsp_teardown (String CR (String LF EmptyString)) example_session
    = (Ret true,
       after_response bad_request_response example_socket example_session).
Proof.
  destruct (handlers_without_cseq_answer_400
              (String CR (String LF EmptyString)) example_session
              example_socket eq_refl eq_refl)
    as (_ & _ & Hplay & _ & Hteardown).
  split; [exact Hplay | exact Hteardown].
Defined.

(** X10: PLAY and PAUSE are answered 200 OK with the CSeq of the request,
    the session id and, for PLAY, "Range: npt=0.000-", on any session --
    whether or not a SETUP came before -- and the active flag is set by
    PLAY and cleared by PAUSE before the response is sent, so also when
    the transmission fails; nothing else of the session changes. *)
Theorem play_and_pause_answered :
  forall body n s sock,
    control_socket_ s = Some sock ->
    parse_rtsp_command_sequence body = Ret (Some n) ->
    n <> -1 ->
    handle_rtsp_play body s =
      (Ret (tcp_transmit_ok sock),
       after_response
         (ok_with_session s n ("Range: npt=0.000-" ++ CRLF)) sock
         (set_session_active true s))
    /\ handle_rtsp_pause body s =
      (Ret (tcp_transmit_ok sock),
       after_response (ok_with_session s n EmptyString) sock
         (set_session_active false s)).
Proof.
  intros body n s sock Hsock Hcseq Hn. split.
  - rewrite (handle_rtsp_play_run body n s sock Hsock Hcseq).
    now rewrite (ok_with_session_text s n _ Hn).
  - rewrite (handle_rtsp_pause_run body n s sock Hsock Hcseq).
    rewrite <- (ok_with_session_text s n EmptyString Hn).
    now rewrite append_empty_r.
Qed.

Lemma play_and_pause_answered_witness :
  handle_rtsp_play play_body disconnected_session =
    (Ret false,
     after_response
       ("RTSP/1.0 200 OK" ++ CRLF ++ "CSeq: 4" ++ CRLF ++
        "Session: 305419896" ++ CRLF ++ "Range: npt=0.000-" ++ CRLF ++ CRLF)
       {| tcp_connected := false; tcp_transmit_ok := false;
          tcp_written := []; tcp_incoming := [] |}
       (set_session_active true disconnected_session)).
Proof.
  apply (play_and_pause_answered play_body 4 disconnected_session
           {| tcp_connected := false; tcp_transmit_ok := false;
              tcp_written := []; tcp_incoming := [] |}).
  - reflexivity.
  - vm_compute. reflexivity.
  - lia.
Defined.

Lemma responses_after_response (response : string) (sock : TcpSocket)
    (s : RtspSession) :
  control_socket_ s = Some sock ->
  responses (after_response response sock s)
  = (responses s ++ [response])%list.
Proof. intros H. unfold responses. now rewrite H. Qed.

(** X11: PLAY, then PAUSE, then PLAY on the same session (each with a
    sequence number other than -1) leave the active flag true, false and
    true in that order, append their three responses to the control stream
    in the order of the requests, and do not touch the closed flag or the
    client ports. *)
Theorem play_pause_play :
  forall b1 b2 b3 n1 n2 n3 s sock,
    control_socket_ s = Some sock ->
    parse_rtsp_command_sequence b1 = Ret (Some n1) -> n1 <> -1 ->
    parse_rtsp_command_sequence b2 = Ret (Some n2) -> n2 <> -1 ->
    parse_rtsp_command_sequence b3 = Ret (Some n3) -> n3 <> -1 ->
    let s1 := snd (handle_rtsp_play b1 s) in
    let s2 := snd (handle_rtsp_pause b2 s1) in
    let s3 := snd (handle_rtsp_play b3 s2) in
    is_active s1 = true /\ is_active s2 = false /\ is_active s3 = true
    /\ responses s3
       = (responses s ++
          [ok_with_session s n1 ("Range: npt=0.000-" ++ CRLF);
           ok_with_session s n2 EmptyString;
           ok_with_session s n3 ("Range: npt=0.000-" ++ CRLF)])%list
    /\ is_closed s3 = is_closed s
    /\ client_rtp_port_ s3 = client_rtp_port_ s
    /\ client_rtcp_port_ s3 = client_rtcp_port_ s.
Proof.
  intros b1 b2 b3 n1 n2 n3 s sock Hsock H1 Hn1 H2 Hn2 H3 Hn3 s1 s2 s3.
  assert (E1 : s1 = after_response
                      (ok_with_session s n1 ("Range: npt=0.000-" ++ CRLF))
                      sock (set_session_active true s)).
  { unfold s1. rewrite (handle_rtsp_play_run b1 n1 s sock Hsock H1).
    now rewrite (ok_with_session_text s n1 _ Hn1). }
  assert (Hsock1 : control_socket_ s1
                   = Some (wrote (ok_with_session s n1
                                    ("Range: npt=0.000-" ++ CRLF)) sock))
    by (rewrite E1; reflexivity).
  assert (E2 : s2 = after_response (ok_with_session s n2 EmptyString)
                      (wrote (ok_with_session s n1
                                ("Range: npt=0.000-" ++ CRLF)) sock)
                      (set_session_active false s1)).
  { unfold s2. rewrite (handle_rtsp_pause_run b2 n2 s1 _ Hsock1 H2).
    cbn [snd]. f_equal.
    rewrite <- (ok_with_session_text s n2 EmptyString Hn2).
    rewrite append_empty_r. now rewrite E1. }
  assert (Hsock2 : control_socket_ s2
                   = Some (wrote (ok_with_session s n2 EmptyString)
                             (wrote (ok_with_session s n1
                                       ("Range: npt=0.000-" ++ CRLF)) sock)))
    by (rewrite E2; reflexivity).
  assert (E3 : s3 = after_response
                      (ok_with_session s n3 ("Range: npt=0.000-" ++ CRLF))
                      (wrote (ok_with_session s n2 EmptyString)
                         (wrote (ok_with_session s n1
                                   ("Range: npt=0.000-" ++ CRLF)) sock))
                      (set_session_active true s2)).
  { unfold s3. rewrite (handle_rtsp_play_run b3 n3 s2 _ Hsock2 H3).
    cbn [snd]. f_equal.
    rewrite <- (ok_with_session_text s n3 _ Hn3). now rewrite E2, E1. }
  split; [rewrite E1; reflexivity|].
  split; [rewrite E2; reflexivity|].
  split; [rewrite E3; reflexivity|].
  split.
  - rewrite E3. unfold responses. cbn. rewrite Hsock.
    now rewrite <- !List.app_assoc.
  - rewrite E3, E2, E1. repeat split.
Qed.

Lemma play_pause_play_witness :
  let s1 := snd (handle_rtsp_play play_body example_session) in
  let s2 := snd (handle_rtsp_pause ("CSeq: 5" ++ CRLF ++ CRLF) s1) in
  let s3 := snd (handle_rtsp_play ("CSeq: 6" ++ CRLF ++ CRLF) s2) in
  is_active s1 = true /\ is_active s2 = false /\ is_active s3 = true.
Proof.
  destruct (play_pause_play play_body ("CSeq: 5" ++ CRLF ++ CRLF)
              ("CSeq: 6" ++ CRLF ++ CRLF) 4 5 6 example_session
              example_socket eq_refl
              ltac:(vm_compute; reflexivity) ltac:(lia)
              ltac:(vm_compute; reflexivity) ltac:(lia)
              ltac:(vm_compute; reflexivity) ltac:(lia))
    as (H1 & H2 & H3 & _).
  repeat split; assumption.
Defined.

(** X12: TEARDOWN is answered 200 OK with the CSeq of the request and the
    session id, clears the active flag and sets the closed flag before the
    response is sent; the next run of the control task on that session
    returns the stop signal and writes nothing more. *)
Theorem teardown_request_closes_and_stops_task :
  forall body n s sock,
    control_socket_ s = Some sock ->
    parse_rtsp_command_sequence body = Ret (Some n) ->
    n <> -1 ->
    handle_rtsp_teardown body s =
      (Ret (tcp_transmit_ok sock),
       after_response (ok_with_session s n EmptyString) sock (torn_down s))
    /\ is_closed (snd (handle_rtsp_teardown body s)) = true
    /\ is_active (snd (handle_rtsp_teardown body s)) = false
    /\ control_task_fn (snd (handle_rtsp_teardown body s))
       = (Ret true, snd (handle_rtsp_teardown body s)).
Proof.
  intros body n s sock Hsock Hcseq Hn.
  rewrite (handle_rtsp_teardown_run body n s sock Hsock Hcseq).
  rewrite <- (ok_with_session_text s n EmptyString Hn), append_empty_r.
  repeat split.
Qed.

Lemma teardown_request_closes_and_stops_task_witness :
  is_closed (snd (handle_rtsp_teardown ("CSeq: 6" ++ CRLF ++ CRLF)
                    example_session)) = true
  /\ control_task_fn (snd (handle_rtsp_teardown ("CSeq: 6" ++ CRLF ++ CRLF)
                             example_session))
     = (Ret true,
        snd (handle_rtsp_teardown ("CSeq: 6" ++ CRLF ++ CRLF)
               example_session)).
Proof.
  destruct (teardown_request_closes_and_stops_task
              ("CSeq: 6" ++ CRLF ++ CRLF) 6 example_session example_socket
              eq_refl ltac:(vm_compute; reflexivity) ltac:(lia))
    as (_ & Hclosed & _ & Hstop).
  split; assumption.
Defined.

(** ** SETUP, further *)

(** X13: a SETUP whose transport is accepted but whose body has no "CSeq: "
    is answered 400 Bad Request without a CSeq header, and the ports it
    carried are not recorded: the session is as before but for the
    response. *)
Theorem setup_without_cseq_records_nothing :
  forall body path N M s sock,
    control_socket_ s = Some sock ->
    fst (parse_rtsp_setup_request body s) = Ret (Some (path, N, M)) ->
    contains body "CSeq: " = false ->
    handle_rtsp_setup body s =
      (Ret (tcp_transmit_ok sock), after_response bad_request_response sock s)
    /\ client_rtp_port_ (snd (handle_rtsp_setup body s)) = client_rtp_port_ s
    /\ client_rtcp_port_ (snd (handle_rtsp_setup body s))
       = client_rtcp_port_ s.
Proof.
  intros body path N M s sock Hsock Hparse Hno.
  pose proof (parse_cseq_absent body Hno) as Hcseq.
  assert (Hrun : handle_rtsp_setup body s =
                 (Ret (tcp_transmit_ok sock),
                  after_response bad_request_response sock s)).
  { unfold handle_rtsp_setup.
    rewrite (bind_ret_run _ _ _ _ _
               (parse_rtsp_setup_request_state _ _ _ Hparse)).
    rewrite (bind_lift_ret _ _ _ _ Hcseq).
    rewrite (handle_rtsp_invalid_request_run body None s sock Hsock Hcseq).
    cbn [echoed_cseq]. now rewrite bad_request_text. }
  rewrite Hrun. repeat split.
Qed.

Lemma setup_without_cseq_records_nothing_witness :
  handle_rtsp_setup setup_body_without_cseq example_session =
    (Ret true,
     after_response bad_request_response example_socket example_session).
Proof.
  apply (setup_without_cseq_records_nothing setup_body_without_cseq
           ("RTP/AVP;unicast;client_port=5000-5001" ++ CRLF ++ CRLF)
           5000 5001 example_session example_socket).
  - reflexivity.
  - vm_compute. reflexivity.
  - vm_compute. reflexivity.
Defined.

(** X14: a SETUP that fails before its transport is known -- the text
    between the first two spaces of the body is empty, or the body has no
    "Transport: ", or no CR follows it, or nothing stands between
    "Transport: " and the CR -- makes [handle_rtsp_setup] return [false]
    without writing any response and without changing the session. *)
Theorem setup_without_transport_unanswered :
  forall body s,
    size body <= max_request_size ->
    path_field body = EmptyString
    \/ contains body "Transport: " = false
    \/ (exists rest, text_after "Transport: " body = Some rest
                     /\ index_char CR rest = None)
    \/ (exists post, text_after "Transport: " body = Some (String CR post)) ->
    handle_rtsp_setup body s = (Ret false, s).
Proof.
  intros body s Hsz Hcase. apply size_below_npos in Hsz.
  assert (Hparse : parse_rtsp_setup_request body s = (Ret None, s)).
  { unfold parse_rtsp_setup_request.
    rewrite (bind_lift_ret _ _ _ _ (parse_rtsp_path_field body Hsz)).
    destruct (path_field body) as [|a p] eqn:Hp; [reflexivity|]. cbn [empty].
    destruct Hcase as [Hempty|[Hno|[(rest & Hafter & Hcr)|(post & Hafter)]]].
    - discriminate Hempty.
    - rewrite (contains_not_found body "Transport: " ltac:(discriminate) Hno).
      now rewrite Z.eqb_refl.
    - destruct (text_after_found _ _ _ Hafter) as (i & Hi & Hdrop & _ & Hlen).
      cbn [String.length] in Hlen. unfold size in Hsz.
      rewrite find_0 by discriminate. rewrite Hi.
      destruct (Z.eqb_spec (Z.of_nat i) npos) as [E|_]; [lia|].
      rewrite find_char_at, Hdrop, index_char_after_transport, Hcr.
      cbn [option_map]. now rewrite Z.eqb_refl.
    - assert (Hth : transport_header body = Some EmptyString).
      { unfold transport_header, text_after in *.
        destruct (index_str "Transport: " body) as [i|]; [|discriminate].
        cbn [String.length] in Hafter. injection Hafter as ->.
        cbn [index_char]. now rewrite Ascii.eqb_refl. }
      destruct (transport_header_cut body EmptyString Hsz Hth)
        as (i & j & Hfind & Hend & Hlt & Hcut).
      rewrite Hfind. unfold size in Hsz.
      destruct (Z.eqb_spec (Z.of_nat i) npos) as [E|_]; [lia|].
      rewrite Hend.
      destruct (Z.eqb_spec (Z.of_nat (i + 11 + j)) npos) as [E|_]; [lia|].
      now rewrite (bind_lift_ret _ _ _ _ Hcut). }
  unfold handle_rtsp_setup. now rewrite (bind_ret_run _ _ _ _ _ Hparse).
Qed.

Lemma setup_without_transport_unanswered_witness :
  handle_rtsp_setup setup_body_without_transport example_session
  = (Ret false, example_session).
Proof.
  apply (setup_without_transport_unanswered setup_body_without_transport
           example_session).
  - vm_compute. discriminate.
  - right. left. reflexivity.
Defined.

(** X15: after an accepted SETUP with ports N and M, [send_rtp_packet]
    hands the packet to the RTP socket addressed to the client address and
    port N, and [send_rtcp_packet] to the RTCP socket and port M (the ports
    as [size_t], so unchanged when they are not negative and below 2^32);
    the datagram is appended after those sent before. *)
Theorem media_goes_to_ports_of_setup :
  forall s body sock path N M n packet,
    control_socket_ s = Some sock ->
    fst (parse_rtsp_setup_request body s) = Ret (Some (path, N, M)) ->
    parse_rtsp_command_sequence body = Ret (Some n) ->
    0 <= N <= npos ->
    0 <= M <= npos ->
    udp_sent (rtp_socket_
                (snd (send_rtp_packet packet (snd (handle_rtsp_setup body s)))))
    = (udp_sent (rtp_socket_ s) ++
       [{| dg_data := packet; dg_ip_address := client_address_ s;
           dg_port := N |}])%list
    /\ udp_sent (rtcp_socket_
                   (snd (send_rtcp_packet packet
                           (snd (handle_rtsp_setup body s)))))
    = (udp_sent (rtcp_socket_ s) ++
       [{| dg_data := packet; dg_ip_address := client_address_ s;
           dg_port := M |}])%list.
Proof.
  intros s body sock path N M n packet Hsock Hparse Hcseq HN HM.
  rewrite (handle_rtsp_setup_run _ _ _ _ _ _ _ Hsock Hparse Hcseq).
  cbn. rewrite (wrap_small N HN), (wrap_small M HM). split; reflexivity.
Qed.

Lemma media_goes_to_ports_of_setup_witness :
  udp_sent (rtp_socket_
              (snd (send_rtp_packet "frame"
                      (snd (handle_rtsp_setup setup_body example_session)))))
  = [{| dg_data := "frame"; dg_ip_address := "192.168.1.20";
        dg_port := 5000 |}]
  /\ udp_sent (rtcp_socket_
                 (snd (send_rtcp_packet "frame"
                         (snd (handle_rtsp_setup setup_body
                                 example_session)))))
  = [{| dg_data := "frame"; dg_ip_address := "192.168.1.20";
        dg_port := 5001 |}].
Proof.
  apply (media_goes_to_ports_of_setup example_session setup_body
           example_socket ("3" ++ CRLF ++ "Transport:") 5000 5001 3 "frame");
    solve [reflexivity | vm_compute; reflexivity
           | vm_compute; split; discriminate].
Defined.

Lemma ports_kept_send code message sequence_number headers body s :
  ports_kept s
    (snd (send_response code message sequence_number headers body s)).
Proof.
  destruct (control_socket_ s) as [sock|] eqn:Hsock.
  - rewrite (send_response_run _ _ _ _ _ _ _ Hsock). split; reflexivity.
  - unfold send_response, transmit, bind, get. rewrite Hsock.
    split; reflexivity.
Qed.

(** X16: the recorded client ports change only through SETUP: OPTIONS,
    DESCRIBE, PLAY, PAUSE, TEARDOWN and the invalid-request handler leave
    them as they were, whatever the request body and whether they answer
    or throw. *)
Theorem ports_change_only_through_setup :
  forall body s,
    ports_kept s (snd (handle_rtsp_options body s))
    /\ ports_kept s (snd (handle_rtsp_describe body s))
    /\ ports_kept s (snd (handle_rtsp_play body s))
    /\ ports_kept s (snd (handle_rtsp_pause body s))
    /\ ports_kept s (snd (handle_rtsp_teardown body s))
    /\ ports_kept s (snd (handle_rtsp_invalid_request body s)).
Proof.
  intros body s.
  assert (Hrefl : forall s0, ports_kept s0 s0) by (split; reflexivity).
  assert (Htrans : forall (a b : nat) s1 s2 s3,
             ports_kept s1 s2 -> ports_kept s2 s3 -> ports_kept s1 s3).
  { intros a b s1 s2 s3 [H1 H2] [G1 G2]. split; congruence. }
  assert (Hmono : forall (a b : nat) s0 s', (a <= b)%nat ->
             ports_kept s0 s' -> ports_kept s0 s') by (intros; assumption).
  assert (Hsend : forall code message, status_in_use code message ->
             forall n h b s0,
               ports_kept s0 (snd (send_response code message n h b s0)))
    by (intros; apply ports_kept_send).
  assert (Hact : forall v s0, ports_kept s0 (set_session_active v s0))
    by (split; reflexivity).
  assert (Hclo : forall s0, ports_kept s0 (set_closed true s0))
    by (split; reflexivity).
  split; [|split; [|split; [|split; [|split]]]].
  - exact (post_options (fun _ => ports_kept) Hrefl Htrans Hmono Hsend body s).
  - exact (post_describe (fun _ => ports_kept) Hrefl Htrans Hmono Hsend body s).
  - exact (post_play (fun _ => ports_kept) Hrefl Htrans Hmono Hsend Hact
             body s).
  - exact (post_pause (fun _ => ports_kept) Hrefl Htrans Hmono Hsend Hact
             body s).
  - exact (post_teardown (fun _ => ports_kept) Hrefl Htrans Hmono Hsend Hact
             Hclo body s).
  - exact (post_invalid_request (fun _ => ports_kept) Hrefl Htrans Hmono Hsend
             body s).
Qed.


